(** * Handoff.ai: the summary route and the upload page

    A shallow embedding of the two source files of the repository:

    - the API route [/api/summary] (its [getPrompt] composer and its [POST]
      handler), and
    - the upload page (its file classification: [isValidFile],
      [hasRequiredFiles] and the two [find] selections of [generateContent]).

    JavaScript strings are [string]s holding the UTF-8 bytes of the text; the
    only characters the code inspects (['.'] and the ASCII letters of the
    allow-lists) are single bytes.  A value that may be [undefined] is an
    [option]; an [await] that may reject, or a call that may throw, yields a
    [JsResult]. *)

From Stdlib Require Import String Ascii List Bool ZArith QArith Lia.
From Stdlib Require Import DecimalString.
Import ListNotations.

Local Open Scope Z_scope.
Local Open Scope string_scope.

(** ** A little of JavaScript *)

Module Js.

(** The exceptions the handler tells apart: [catch] tests
    [error instanceof SyntaxError]; everything else takes the last branch. *)
Inductive JsError : Type :=
| SyntaxError
| TypeError
| OtherError.

(** The outcome of a call that may throw, or of an awaited promise. *)
Inductive JsResult (A : Type) : Type :=
| Ok (a : A)
| Throw (e : JsError).
Arguments Ok {A} a.
Arguments Throw {A} e.

(** [!x] on a value typed [string] that may be [undefined]: only
    [undefined] and the empty string are falsy. *)
Definition truthy (x : option string) : bool :=
  match x with
  | Some s => negb (s =? "")
  | None => false
  end.

(** What a template literal or [+] makes of such a value. *)
Definition to_string (x : option string) : string :=
  match x with
  | Some s => s
  | None => "undefined"
  end.

(** The double quote and the line feed, which a literal cannot hold
    conveniently. *)
Definition dq : string := String "034"%char EmptyString.
Definition LF : string := String "010"%char EmptyString.

End Js.

(** ** The route: [getPrompt] *)

Module Route.
Import Js.

Definition NVIDIA_API_URL : string := "https://integrate.api.nvidia.com/v1".
Definition MODEL_NAME : string := "nvidia/llama-3.1-nemotron-nano-8b-v1".

(** The four template literals of [getPrompt], each the source's text
    with its two holes, [markdown] and [code]. *)
Definition summaryPrompt (markdown code : string) : string :=
  "Summarize the following AI-assisted development session in 2–3 sentences.

Focus on:
- What Engineer 1 was trying to build
- Any major shifts in approach
- Tools or APIs used
- Current state of the work (e.g. incomplete, functional, missing validation)

Avoid code. Be concise and clear.

---

## Chat Transcript:
" ++ markdown ++ "

## Final Code:
" ++ code.

Definition cursorPrompt (markdown code : string) : string :=
  "You are an AI memory generator for coding assistants like Cursor. Your task is to create a structured context document that captures the full development process from a previous engineer, to be used by a second engineer's AI assistant to continue seamlessly.

You will be given:
- The full code at the time of handoff
- Logs of chat conversations between Engineer 1 and their coding assistants (Cursor, Claude, etc.), including prompts, code suggestions, errors, questions, and revisions

Output a detailed technical summary with the following structure:

1. Feature Name
2. Development Timeline (timestamped major events)
3. Original Goals (what the engineer was trying to achieve)
4. Coding History:
   - Key code changes with associated prompts
   - Important implementation decisions
   - Deleted or replaced approaches
   - Bugs and error messages encountered
5. Resolved vs Unresolved Issues
6. Remaining TODOs
7. Dependencies and External Services
8. Engineer 1's coding preferences or style notes (e.g. " ++ dq ++ "prefers minimal error handling" ++ dq ++ ", " ++ dq ++ "used async/await throughout" ++ dq ++ ")

This document will serve as **working context for the next engineer's AI assistant**, so avoid unnecessary commentary. Prioritize clarity, completeness, and deep technical accuracy. Include relevant code snippets and time markers to help AI interpret the codebase like Engineer 1 did.

---

## Chat Transcript:
" ++ markdown ++ "

## Final Code:
" ++ code ++ "

---

Please return only the structured context document that can be pasted into Cursor/Claude to give the AI assistant full context of Engineer 1's work.".

Definition readmePrompt (markdown code : string) : string :=
  "You are a senior AI developer assistant. Your task is to generate a clear, human-readable README for a second engineer inheriting a coding project mid-sprint.

You will be given:
- Full source code at the time of handoff
- A chronological log of conversations between Engineer 1 and their AI assistants (Cursor, Claude, etc), including all prompts, responses, code snippets, questions, bugs, and notes.

Your job is to extract and organize the full **thought process** of Engineer 1 into a concise but thorough README. It must help Engineer 2 quickly understand:

1. What was the goal of the work Engineer 1 was doing?
2. What did the code look like when they started?
3. How did it change over time? (Include timestamps with major events)
4. What bugs or blockers did they face? How were these resolved?
5. What tradeoffs were made or shortcuts taken?
6. Are there any known gaps, risks, or unfinished elements?
7. Any critical TODOs or handoff notes?
8. What patterns or intentions does Engineer 2 need to know to continue work?

Format the README with clearly marked sections and timestamps (e.g. Monday 11:04am – Fixed image upload bug by bypassing validation check). Use bullet points and code snippets when helpful. Prioritize clarity, context, and continuity. Assume Engineer 2 has access to the code but not the full chat history.

---

## Chat Transcript:
" ++ markdown ++ "

## Final Code:
" ++ code.

(* Fallback to original combined prompt *)
Definition combinedPrompt (markdown code : string) : string :=
  "You're an AI summarizer for engineering handoffs.

A developer worked on a feature using AI tools like Cursor and Claude. Below is their chat log and final code.

Generate:

### README.md
- What they built
- Key decisions
- Tradeoffs
- Tools used
- TODOs
- Red flags

### Cursor Log
Reconstruct the session as:
### Engineer:
...
### AI:
...

---

## Chat Export:
" ++ markdown ++ "

## Final Code:
" ++ code ++ "

---

Please provide your response in the following format:

## README.md
[Your README content here]

## Cursor Log
[Your Cursor log reconstruction here]".

(** The [switch] compares [type] with [===]; [default] takes the rest. *)
Definition getPrompt (type markdown code : string) : string :=
  if type =? "summary" then summaryPrompt markdown code
  else if type =? "cursor" then cursorPrompt markdown code
  else if type =? "readme" then readmePrompt markdown code
  else combinedPrompt markdown code.

(** ** The route: data *)

(** The parsed request body.  A field the caller left out is [undefined];
    [type] then takes its default at the destructuring. *)
Record SummaryRequest : Type := {
  markdown : option string;
  code : option string;
  type : option string
}.

Record SummaryResponse : Type := {
  readme : option string;
  cursorLog : option string;
  summary : option string
}.

(** [let result: SummaryResponse = {}] *)
Definition empty_result : SummaryResponse :=
  {| readme := None; cursorLog := None; summary := None |}.

(** What the handler answers: the response [NextResponse.json(body,
    { status })] builds, whose body is either [{ error }] or a
    [SummaryResponse]. *)
Inductive Payload : Type :=
| ErrorBody (error : string)
| ResultBody (result : SummaryResponse).

Record NextResponse : Type := {
  res_status : Z;
  res_body : Payload
}.

Definition NextResponse_json (body : Payload) (status : Z) : NextResponse :=
  {| res_status := status; res_body := body |}.

(** The call itself builds a [Response] with a body, and that throws: a
    RangeError for a status outside 200-599, a TypeError for a status that
    allows no body.  The handler treats the two alike. *)
Definition null_body_status (status : Z) : bool :=
  (status =? 101)%Z || (status =? 103)%Z || (status =? 204)%Z
  || (status =? 205)%Z || (status =? 304)%Z.

Definition NextResponse_json_call (body : Payload) (status : Z) : JsResult NextResponse :=
  if (status <? 200)%Z || (599 <? status)%Z then Throw OtherError
  else if null_body_status status then Throw TypeError
  else Ok (NextResponse_json body status).

(** The outbound call: the object given to [JSON.stringify], kept as a
    record, and the [init] argument of [fetch]. *)
Record ChatTurn : Type := {
  role : string;
  content : string
}.

Record CompletionRequest : Type := {
  model : string;
  messages : list ChatTurn;
  temperature : Q;
  top_p : Z;
  max_tokens : Z;
  stream : bool
}.

Record RequestInit : Type := {
  method : string;
  headers : list (string * string);
  body : CompletionRequest
}.

(** The upstream answer.  [response.text()] and [response.json()] are
    promises that may reject.  [data] is read through
    [data.choices?.[0]?.message?.content]: every link of the chain may be
    missing. *)
Record Message : Type := { message_content : option string }.
Record Choice : Type := { message : option Message }.
Record Completion : Type := { choices : option (list Choice) }.

Record Response : Type := {
  status : Z;
  text : JsResult string;
  json : JsResult Completion
}.

(** [response.ok]: the status is in the range 200-299. *)
Definition ok (response : Response) : bool :=
  (200 <=? status response)%Z && (status response <=? 299)%Z.

(** The incoming request is used for [request.json()] only. *)
Record NextRequest : Type := { request_json : JsResult SummaryRequest }.

(** What the handler does besides answering, in the order it does it. *)
Inductive LogArg : Type :=
| LogText (s : string)
| LogNumber (n : Z)
| LogError (e : JsError).

Inductive Event : Type :=
| ConsoleError (args : list LogArg)
| Fetch (url : string) (init : RequestInit).

(** ** The route: a handler's effects

    A computation appends to the trace of events and either yields a value
    or throws. *)
Definition Handler (A : Type) : Type := list Event -> JsResult A * list Event.

Definition ret {A : Type} (a : A) : Handler A := fun tr => (Ok a, tr).

Definition bind {A B : Type} (m : Handler A) (k : A -> Handler B) : Handler B :=
  fun tr =>
    match m tr with
    | (Ok a, tr') => k a tr'
    | (Throw e, tr') => (Throw e, tr')
    end.

Definition await {A : Type} (r : JsResult A) : Handler A := fun tr => (r, tr).

Definition emit (e : Event) : Handler unit := fun tr => (Ok tt, (tr ++ [e])%list).

Definition console_error (args : list LogArg) : Handler unit :=
  emit (ConsoleError args).

Definition try_catch {A : Type} (m : Handler A) (h : JsError -> Handler A) : Handler A :=
  fun tr =>
    match m tr with
    | (Ok a, tr') => (Ok a, tr')
    | (Throw e, tr') => h e tr'
    end.

Notation "x <- m ;; k" := (bind m (fun x => k))
  (at level 61, m at next level, right associativity).
Notation "m ;;; k" := (bind m (fun _ => k))
  (at level 61, right associativity).

(** ** The route: [POST] *)

Section Handler.

(** [process.env.NVIDIA_API_KEY], and the network behind [fetch]: what
    the completion service answers to a call, or the rejection of the
    promise. *)
Variable NVIDIA_API_KEY : option string.
Variable network : string -> RequestInit -> JsResult Response.

Definition fetch (url : string) (init : RequestInit) : Handler Response :=
  emit (Fetch url init) ;;; await (network url init).

(** The first completion's text, [undefined] when a link is missing. *)
Definition first_content (data : Completion) : option string :=
  match choices data with
  | Some (choice :: _) =>
      match message choice with
      | Some m => message_content m
      | None => None
      end
  | _ => None
  end.

(** The second argument of the [fetch] in [POST]. *)
Definition completionCall (apiKey type prompt : string) : RequestInit :=
  {| method := "POST";
     headers := [("Authorization", "Bearer " ++ apiKey);
                 ("Content-Type", "application/json")];
     body := {| model := MODEL_NAME;
                messages := [{| role := "user"; content := prompt |}];
                temperature := 7 # 10;
                top_p := 1;
                max_tokens := if type =? "summary" then 512 else 2048; (* Shorter for summaries *)
                stream := false |} |}.

Definition POST (request : NextRequest) : Handler NextResponse :=
  try_catch
    ((* Parse the request body *)
     req <- await (request_json request) ;;
     let markdown := markdown req in
     let code := code req in
     let type := match type req with Some t => t | None => "summary" end in
     (* Validate input *)
     if negb (truthy markdown) || negb (truthy code) then
       await (NextResponse_json_call
              (ErrorBody "Both markdown and code fields are required") 400)
     else
     (* Check for API key *)
     let apiKey := NVIDIA_API_KEY in
     if negb (truthy apiKey) then
       console_error [LogText "NVIDIA_API_KEY is not set in environment variables"] ;;;
       await (NextResponse_json_call
              (ErrorBody "Server configuration error: API key not found") 500)
     else
     (* Get the appropriate prompt based on type *)
     let prompt := getPrompt type (to_string markdown) (to_string code) in
     (* Call NVIDIA NIM API *)
     response <- fetch (NVIDIA_API_URL ++ "/chat/completions")
                       (completionCall (to_string apiKey) type prompt) ;;
     if negb (ok response) then
       errorText <- await (text response) ;;
       console_error [LogText "NVIDIA API Error:";
                      LogNumber (status response); LogText errorText] ;;;
       let errorMessage :=
         if (status response =? 401)%Z then "Invalid API key"
         else if (status response =? 429)%Z then
           "Rate limit exceeded. Please try again later."
         else if (status response >=? 500)%Z then
           "NVIDIA API service unavailable"
         else "Failed to generate content" in
       await (NextResponse_json_call (ErrorBody errorMessage) (status response))
     else
     data <- await (json response) ;;
     (* Extract the generated content *)
     let content :=
       if truthy (first_content data) then to_string (first_content data)
       else "" in
     if negb (truthy (Some content)) then
       await (NextResponse_json_call (ErrorBody "No content generated from AI") 500)
     else
     (* Handle response based on type *)
     let result :=
       if type =? "summary" then
         {| readme := None; cursorLog := None; summary := Some content |}
       else if type =? "cursor" then
         {| readme := None; cursorLog := Some content; summary := None |}
       else if type =? "readme" then
         {| readme := Some content; cursorLog := None; summary := None |}
       else empty_result in
     await (NextResponse_json_call (ResultBody result) 200))
    (fun error =>
       console_error [LogText "API Error:"; LogError error] ;;;
       (* Handle different types of errors *)
       match error with
       | SyntaxError =>
           await (NextResponse_json_call (ErrorBody "Invalid JSON in request body") 400)
       | _ =>
           await (NextResponse_json_call
                  (ErrorBody "Internal server error occurred while processing your request")
                  500)
       end).

End Handler.

End Route.

(** ** The page: which files are there *)

Module Page.
Import Js.

(** [type GenerationType = 'summary' | 'cursor' | 'readme'], and the
    string each value is. *)
Inductive GenerationType : Type :=
| Summary
| Cursor
| Readme.

Definition type_string (t : GenerationType) : string :=
  match t with
  | Summary => "summary"
  | Cursor => "cursor"
  | Readme => "readme"
  end.

(** Of a browser [File] the page reads [name] and [type] only. *)
Record File : Type := {
  name : string;
  type : string
}.

Definition acceptedFileTypes : list string := [".md"; ".txt"; ".js"; ".ts"].
Definition acceptedMimeTypes : list string :=
  ["text/markdown"; "text/plain"; "text/javascript"; "application/javascript"].

(** [Array.prototype.includes] on strings. *)
Definition includes (l : list string) (x : string) : bool :=
  existsb (String.eqb x) l.

(** [s.split(sep)] for a one-character separator: the pieces between the
    separators, at least one piece. *)
Fixpoint split (sep : ascii) (s : string) : list string :=
  match s with
  | EmptyString => [EmptyString]
  | String c s' =>
      if (c =? sep)%char then EmptyString :: split sep s'
      else match split sep s' with
           | piece :: rest => String c piece :: rest
           | [] => [String c EmptyString]
           end
  end.

(** [a.pop()]: the last element, [undefined] on an empty array. *)
Fixpoint pop (a : list string) : option string :=
  match a with
  | [] => None
  | [x] => Some x
  | _ :: rest => pop rest
  end.

(** [toLowerCase] on the letters A-Z; the other bytes stay.  (No character
    outside ASCII lower-cases to a letter of an allow-list entry, so the
    [includes] tests below see what the browser sees.) *)
Definition lower (c : ascii) : ascii :=
  let n := nat_of_ascii c in
  if (65 <=? n)%nat && (n <=? 90)%nat then ascii_of_nat (n + 32) else c.

Fixpoint toLowerCase (s : string) : string :=
  match s with
  | EmptyString => EmptyString
  | String c s' => String (lower c) (toLowerCase s')
  end.

(** ['.' + name.split('.').pop()?.toLowerCase()] *)
Definition extension (fileName : string) : string :=
  "." ++ to_string (option_map toLowerCase (pop (split "." fileName))).

Definition isValidFile (file : File) : bool :=
  includes acceptedFileTypes (extension (name file))
  || includes acceptedMimeTypes (type file).

(** The two tests [hasRequiredFiles] and [generateContent] share. *)
Definition isMarkdown (f : File) : bool :=
  includes [".md"; ".txt"] (extension (name f)).

Definition isCode (f : File) : bool :=
  includes [".js"; ".ts"] (extension (name f)).

Definition hasRequiredFiles (uploadedFiles : list File) : bool :=
  let hasMarkdown := existsb isMarkdown uploadedFiles in
  let hasCode := existsb isCode uploadedFiles in
  hasMarkdown && hasCode.

(** [generateContent]: find the first markdown/txt file and the first
    js/ts file. *)
Definition markdownFile (uploadedFiles : list File) : option File :=
  find isMarkdown uploadedFiles.

Definition codeFile (uploadedFiles : list File) : option File :=
  find isCode uploadedFiles.

End Page.

(** ** Vocabulary of the statements *)

Module Observe.
Import Js Route.
Local Open Scope string_scope.

(** The calls to the completion service in a trace. *)
Fixpoint fetches (tr : list Event) : list (string * RequestInit) :=
  match tr with
  | [] => []
  | Fetch url init :: rest => (url, init) :: fetches rest
  | ConsoleError _ :: rest => fetches rest
  end.

(** The answer of a handler started on an empty trace, and its trace. *)
Definition answer (h : Handler NextResponse) : option NextResponse :=
  match fst (h []) with
  | Ok r => Some r
  | Throw _ => None
  end.

Definition trace (h : Handler NextResponse) : list Event := snd (h []).

(** What the [catch] block of [POST] makes of an error, on a trace. *)
Definition caught (error : JsError) (tr : list Event)
  : JsResult NextResponse * list Event :=
  (Ok (NextResponse_json
         match error with
         | SyntaxError => ErrorBody "Invalid JSON in request body"
         | _ => ErrorBody "Internal server error occurred while processing your request"
         end
         match error with
         | SyntaxError => 400
         | _ => 500
         end),
   (tr ++ [ConsoleError [LogText "API Error:"; LogError error]])%list).

(** A status [NextResponse.json] accepts with a body. *)
Definition answerable (status : Z) : Prop :=
  200 <= status <= 599 /\ status <> 204 /\ status <> 205 /\ status <> 304.

(** The request a well-formed caller sends. *)
Definition request_of (markdown code type : option string) : NextRequest :=
  {| request_json := Ok {| markdown := markdown; code := code; type := type |} |}.

(** [type = 'summary'] at the destructuring. *)
Definition type_of (type : option string) : string :=
  match type with
  | Some t => t
  | None => "summary"
  end.

Definition endpoint : string := NVIDIA_API_URL ++ "/chat/completions".

(** A string is missing when [!x] holds. *)
Definition missing (x : option string) : Prop := x = None \/ x = Some "".

(** [sub] occurs in [s]. *)
Fixpoint occurs (sub s : string) : bool :=
  if String.prefix sub s then true
  else match s with
       | EmptyString => false
       | String _ s' => occurs sub s'
       end.

(** [s] without its first [n] characters. *)
Fixpoint skip (n : nat) (s : string) : string :=
  match n, s with
  | O, _ => s
  | S _, EmptyString => EmptyString
  | S n', String _ s' => skip n' s'
  end.

(** What precedes, and what follows, the first occurrence of [sub] in [s]. *)
Fixpoint before_first (sub s : string) : string :=
  if String.prefix sub s then EmptyString
  else match s with
       | EmptyString => EmptyString
       | String c s' => String c (before_first sub s')
       end.

Fixpoint after_first (sub s : string) : option string :=
  if String.prefix sub s then Some (skip (String.length sub) s)
  else match s with
       | EmptyString => None
       | String _ s' => after_first sub s'
       end.

Definition after_second (sub s : string) : string :=
  match after_first sub s with
  | Some r =>
      match after_first sub r with
      | Some f => f
      | None => EmptyString
      end
  | None => EmptyString
  end.

(** A name has a dot; and the text after its last dot, the whole name when
    it has none. *)
Fixpoint has_dot (s : string) : bool :=
  match s with
  | EmptyString => false
  | String c s' => (c =? ".")%char || has_dot s'
  end.

Fixpoint after_last_dot (s : string) : string :=
  match s with
  | EmptyString => EmptyString
  | String c s' =>
      if has_dot s' then after_last_dot s'
      else if (c =? ".")%char then s'
      else String c s'
  end.

(** The structural contract in the specification's words: instructions, the
    separator, the transcript, the separator, the code, and possibly trailing
    instructions.  Headings and blank lines may stand around the two
    separators. *)
Definition structural_contract (prompt transcript code : string) : Prop :=
  exists instructions before_transcript after_transcript before_code trailing,
    prompt = instructions ++ "---" ++ before_transcript ++ transcript
             ++ after_transcript ++ "---" ++ before_code ++ code ++ trailing.

End Observe.

(** ** Inputs of the examples *)

Module Inputs.
Import Js Route Page.

(** A completion service that answers every call with status 200 and the
    given completions. *)
Definition mocked (completions : list Choice) : string -> RequestInit -> JsResult Response :=
  fun _ _ => Ok {| status := 200; text := Ok ""; json := Ok {| choices := Some completions |} |}.

Definition completion (text : string) : Choice :=
  {| message := Some {| message_content := Some text |} |}.

(** A completion service that answers every call with the given status and
    a body that is no JSON. *)
Definition failing (status : Z) (text : string) : string -> RequestInit -> JsResult Response :=
  fun _ _ => Ok {| status := status; text := Ok text; json := Throw SyntaxError |}.

(** A file of the given name, of no declared MIME type. *)
Definition file (name : string) : File := {| name := name; Page.type := "" |}.

(** A request whose body does not parse. *)
Definition malformed : NextRequest := {| request_json := Throw SyntaxError |}.

End Inputs.

(** ** The page: [String.prototype.trim] *)

Module Text.

(** A text as its UTF-8 bytes. *)
Definition bytes (codes : list nat) : list ascii := map ascii_of_nat codes.

(** The code points [trim] removes, each in UTF-8: the white space of the
    language (TAB, VT, FF, the space separators of Unicode, ZWNBSP) and its
    line terminators (LF, CR, LS, PS). *)
Definition whiteSpace : list (list ascii) :=
  map bytes
    ([[9]; [10]; [11]; [12]; [13]; [32];  (* TAB LF VT FF CR SP *)
     [194; 160];                         (* U+00A0 *)
     [225; 154; 128];                    (* U+1680 *)
     [226; 128; 128]; [226; 128; 129]; [226; 128; 130]; [226; 128; 131];
     [226; 128; 132]; [226; 128; 133]; [226; 128; 134]; [226; 128; 135];
     [226; 128; 136]; [226; 128; 137]; [226; 128; 138];  (* U+2000 - U+200A *)
     [226; 128; 168]; [226; 128; 169];   (* U+2028 U+2029 *)
     [226; 128; 175];                    (* U+202F *)
     [226; 129; 159];                    (* U+205F *)
     [227; 128; 128];                    (* U+3000 *)
     [239; 187; 191]])%nat.              (* U+FEFF *)

(** [w] is at the start of [s]. *)
Fixpoint starts (w s : list ascii) : bool :=
  match w, s with
  | [], _ => true
  | _ :: _, [] => false
  | a :: w', b :: s' => (a =? b)%char && starts w' s'
  end.

(** The pattern of [patterns] at the start of [s]. *)
Definition leading (patterns : list (list ascii)) (s : list ascii) : option (list ascii) :=
  find (fun w => starts w s) patterns.

(** Remove patterns from the start of [s] while there is one; [n] bounds the
    number of removals, and the length of [s] is enough. *)
Fixpoint strip (patterns : list (list ascii)) (n : nat) (s : list ascii) : list ascii :=
  match n with
  | O => s
  | S n' =>
      match leading patterns s with
      | Some w => strip patterns n' (skipn (length w) s)
      | None => s
      end
  end.

Definition trimStart (s : list ascii) : list ascii :=
  strip whiteSpace (length s) s.

(** At the end of a text a code point is found by its bytes read backwards. *)
Definition trimEnd (s : list ascii) : list ascii :=
  rev (strip (map (@rev ascii) whiteSpace) (length s) (rev s)).

Definition trim (s : string) : string :=
  string_of_list_ascii (trimEnd (trimStart (list_ascii_of_string s))).

(** A run of white space. *)
Definition blank (s : list ascii) : Prop :=
  exists run, Forall (fun w => In w whiteSpace) run /\ s = concat run.

End Text.

(** ** The page: the state of [Home] and what changes it *)

Module Home.
Import Js Page Text.

(** The [results] of the component. *)
Record Results : Type := {
  readme : option string;
  cursorLog : option string;
  summary : option string
}.

(** The state the hooks of [Home] hold. *)
Record State : Type := {
  uploadedFiles : list File;
  isLoading : bool;
  loadingType : option GenerationType;
  results : Results;
  error : string;
  isDragOver : bool
}.

Definition initial : State :=
  {| uploadedFiles := [];
     isLoading := false;
     loadingType := None;
     results := {| readme := None; cursorLog := None; summary := None |};
     error := "";
     isDragOver := false |}.

(** The setters; those of the file list and of the results are used with a
    function of the previous value. *)
Definition setUploadedFiles (f : list File -> list File) (st : State) : State :=
  {| uploadedFiles := f (uploadedFiles st);
     isLoading := isLoading st;
     loadingType := loadingType st;
     results := results st;
     error := error st;
     isDragOver := isDragOver st |}.

Definition setIsLoading (b : bool) (st : State) : State :=
  {| uploadedFiles := uploadedFiles st;
     isLoading := b;
     loadingType := loadingType st;
     results := results st;
     error := error st;
     isDragOver := isDragOver st |}.

Definition setLoadingType (t : option GenerationType) (st : State) : State :=
  {| uploadedFiles := uploadedFiles st;
     isLoading := isLoading st;
     loadingType := t;
     results := results st;
     error := error st;
     isDragOver := isDragOver st |}.

Definition setResults (f : Results -> Results) (st : State) : State :=
  {| uploadedFiles := uploadedFiles st;
     isLoading := isLoading st;
     loadingType := loadingType st;
     results := f (results st);
     error := error st;
     isDragOver := isDragOver st |}.

Definition setError (e : string) (st : State) : State :=
  {| uploadedFiles := uploadedFiles st;
     isLoading := isLoading st;
     loadingType := loadingType st;
     results := results st;
     error := e;
     isDragOver := isDragOver st |}.

Definition setIsDragOver (b : bool) (st : State) : State :=
  {| uploadedFiles := uploadedFiles st;
     isLoading := isLoading st;
     loadingType := loadingType st;
     results := results st;
     error := error st;
     isDragOver := b |}.

(** What a handler of the page throws, as the [catch] of [generateContent]
    sees it: an [Error] with its message, or some other value. *)
Inductive Thrown : Type :=
| ErrorObject (message : string)
| OtherValue.

Inductive Outcome (A : Type) : Type :=
| Value (a : A)
| Threw (t : Thrown).
Arguments Value {A} a.
Arguments Threw {A} t.

(** The request of the page to its route, and the answer as the page reads
    it: [ok], [status], [statusText], and of the parsed body the fields
    [error], [summary], [readme] and [cursorLog]. *)
Record SummaryBody : Type := {
  markdown : string;
  code : string;
  type : GenerationType
}.

Record RequestInit : Type := {
  method : string;
  headers : list (string * string);
  body : SummaryBody
}.

Record Data : Type := {
  data_error : option string;
  data_summary : option string;
  data_readme : option string;
  data_cursorLog : option string
}.

Record Response : Type := {
  status : Z;
  statusText : string;
  json : Outcome Data
}.

Definition ok (response : Response) : bool :=
  (200 <=? status response)%Z && (status response <=? 299)%Z.

(** What the page does besides changing its state. *)
Inductive Effect : Type :=
| SetTimeoutClearError (ms : Z)
| ConsoleError (label : string) (err : Thrown)
| Fetch (url : string) (init : RequestInit)
| PreventDefault.

(** [handleFileSelect]: the valid files are appended; when some file is not
    valid the error is set, and cleared by a timer three seconds later. *)
Definition handleFileSelect (files : list File) (st : State) : State * list Effect :=
  let fileArray := files in
  let validFiles := filter isValidFile fileArray in
  let rejected := negb (length validFiles =? length fileArray)%nat in
  let st1 :=
    if rejected then
      setError "Some files were rejected. Please upload only .md, .txt, .js, or .ts files." st
    else st in
  (setUploadedFiles (fun prev => (prev ++ validFiles)%list) st1,
   if rejected then [SetTimeoutClearError 3000] else []).

(** The callback of that timer. *)
Definition clearError (st : State) : State := setError "" st.

Definition handleDragOver (st : State) : State * list Effect :=
  (setIsDragOver true st, [PreventDefault]).

Definition handleDragLeave (st : State) : State * list Effect :=
  (setIsDragOver false st, [PreventDefault]).

Definition handleDrop (files : list File) (st : State) : State * list Effect :=
  let (st', effects) := handleFileSelect files (setIsDragOver false st) in
  (st', PreventDefault :: effects).

(** [prev.filter((_, i) => i !== index)] *)
Fixpoint filter_index {A : Type} (keep : nat -> bool) (i : nat) (l : list A) : list A :=
  match l with
  | [] => []
  | x :: rest =>
      if keep i then x :: filter_index keep (S i) rest
      else filter_index keep (S i) rest
  end.

Definition removeFile (index : nat) (st : State) : State :=
  setUploadedFiles (fun prev => filter_index (fun i => negb (i =? index)%nat) 0 prev) st.

(** The number of a status in a template literal. *)
Definition number_to_string (n : Z) : string :=
  DecimalString.NilZero.string_of_int (Z.to_int n).

Section GenerateContent.

(** [readFileContent]: the text of a file, or nothing when the reader fails
    (the promise then rejects with the event, which is no [Error]); and the
    network behind [fetch]. *)
Variable readFileContent : File -> option string.
Variable network : string -> RequestInit -> Outcome Response.

(** The [try] block, up to the new results. *)
Definition attempt (type : GenerationType) (uploadedFiles : list File)
  : list Effect * Outcome (Results -> Results) :=
  (* Find the first markdown/txt file *)
  let markdownFile := find isMarkdown uploadedFiles in
  (* Find the first js/ts file *)
  let codeFile := find isCode uploadedFiles in
  match markdownFile, codeFile with
  | Some markdownFile, Some codeFile =>
      (* Read file contents *)
      match readFileContent markdownFile, readFileContent codeFile with
      | Some markdownContent, Some codeContent =>
          let init :=
            {| method := "POST";
               headers := [("Content-Type", "application/json")];
               body := {| markdown := trim markdownContent;
                          code := trim codeContent;
                          type := type |} |} in
          ([Fetch "/api/summary" init],
           match network "/api/summary" init with
           | Threw t => Threw t
           | Value response =>
               if negb (ok response) then
                 let errorData :=
                   match json response with
                   | Value d => data_error d
                   | Threw _ => None
                   end in
                 Threw (ErrorObject
                          (if truthy errorData then to_string errorData
                           else "HTTP " ++ number_to_string (status response)
                                ++ ": " ++ statusText response))
               else
                 match json response with
                 | Threw t => Threw t
                 | Value data =>
                     (* Update results based on type *)
                     Value (fun prev =>
                              match type with
                              | Summary =>
                                  {| readme := readme prev;
                                     cursorLog := cursorLog prev;
                                     summary := data_summary data |}
                              | Readme =>
                                  {| readme := data_readme data;
                                     cursorLog := cursorLog prev;
                                     summary := summary prev |}
                              | Cursor =>
                                  {| readme := readme prev;
                                     cursorLog := data_cursorLog data;
                                     summary := summary prev |}
                              end)
                 end
           end)
      | _, _ => ([], Threw OtherValue)
      end
  | _, _ => ([], Threw (ErrorObject "Required file types not found"))
  end.

Definition generateContent (type : GenerationType) (st : State) : State * list Effect :=
  if negb (hasRequiredFiles (uploadedFiles st)) then
    (setError "Please upload at least one chat file (.md or .txt) and one code file (.js or .ts)." st,
     [])
  else
    let st1 := setError "" (setLoadingType (Some type) (setIsLoading true st)) in
    let (effects, outcome) := attempt type (uploadedFiles st) in
    let (st2, effects2) :=
      match outcome with
      | Value update => (setResults update st1, effects)
      | Threw err =>
          (setError
             match err with
             | ErrorObject message => message
             | OtherValue => "An unknown error occurred"
             end st1,
           (effects ++ [ConsoleError "Error:" err])%list)
      end in
    (* finally *)
    (setLoadingType None (setIsLoading false st2), effects2).

End GenerateContent.

(** What the user and the timer do to the page, each handler run to its
    end, and the state after a sequence of these. *)
Inductive Action : Type :=
| SelectFiles (files : list File)
| DropFiles (files : list File)
| DragOver
| DragLeave
| RemoveFile (index : nat)
| Generate (type : GenerationType)
| TimerFires.

Definition perform (readFileContent : File -> option string)
    (network : string -> RequestInit -> Outcome Response)
    (a : Action) (st : State) : State :=
  match a with
  | SelectFiles files => fst (handleFileSelect files st)
  | DropFiles files => fst (handleDrop files st)
  | DragOver => fst (handleDragOver st)
  | DragLeave => fst (handleDragLeave st)
  | RemoveFile index => removeFile index st
  | Generate type => fst (generateContent readFileContent network type st)
  | TimerFires => clearError st
  end.

Definition run (readFileContent : File -> option string)
    (network : string -> RequestInit -> Outcome Response)
    (actions : list Action) (st : State) : State :=
  fold_left (fun st a => perform readFileContent network a st) actions st.

End Home.

(** ** The page in front of the route *)

Module Served.
Import Js.

(** The body of an answer of the route as the page parses it: a field that
    is not set is not there. *)
Definition data_of (payload : Route.Payload) : Home.Data :=
  match payload with
  | Route.ErrorBody error =>
      {| Home.data_error := Some error;
         Home.data_summary := None;
         Home.data_readme := None;
         Home.data_cursorLog := None |}
  | Route.ResultBody result =>
      {| Home.data_error := None;
         Home.data_summary := Route.summary result;
         Home.data_readme := Route.readme result;
         Home.data_cursorLog := Route.cursorLog result |}
  end.

(** The network of the page when its request reaches [POST] as sent and the
    answer of [POST] comes back as given; [statusText] is what the server
    writes beside a status. *)
Definition route (apiKey : option string)
    (upstream : string -> Route.RequestInit -> JsResult Route.Response)
    (statusText : Z -> string)
  : string -> Home.RequestInit -> Home.Outcome Home.Response :=
  fun _ init =>
    let request :=
      {| Route.request_json :=
           Ok {| Route.markdown := Some (Home.markdown (Home.body init));
                 Route.code := Some (Home.code (Home.body init));
                 Route.type := Some (Page.type_string (Home.type (Home.body init))) |} |} in
    match fst (Route.POST apiKey upstream request []) with
    | Ok r =>
        Home.Value {| Home.status := Route.res_status r;
                      Home.statusText := statusText (Route.res_status r);
                      Home.json := Home.Value (data_of (Route.res_body r)) |}
    | Throw _ => Home.Threw Home.OtherValue
    end.

(** The events of the route during that exchange. *)
Definition route_trace (apiKey : option string)
    (upstream : string -> Route.RequestInit -> JsResult Route.Response)
    (init : Home.RequestInit) : list Route.Event :=
  snd (Route.POST apiKey upstream
         {| Route.request_json :=
              Ok {| Route.markdown := Some (Home.markdown (Home.body init));
                    Route.code := Some (Home.code (Home.body init));
                    Route.type := Some (Page.type_string (Home.type (Home.body init))) |} |}
         []).

End Served.

(** * Properties *)

Import Js Route Page Observe Inputs.

(** ** Running the handler *)

Lemma truthy_Some (s : string) : s <> "" -> truthy (Some s) = true.
Proof.
  intros H. unfold truthy. destruct (String.eqb_spec s ""); [contradiction | reflexivity].
Qed.

Lemma truthy_missing (x : option string) : missing x <-> truthy x = false.
Proof.
  unfold missing, truthy. split.
  - intros [-> | ->]; reflexivity.
  - destruct x as [s|]; [|now left]. destruct (String.eqb_spec s ""); [subst; now right | discriminate].
Qed.

Lemma truthy_present (x : option string) :
  truthy x = true -> exists s, x = Some s /\ s <> "".
Proof.
  destruct x as [s|]; simpl; [|discriminate].
  destruct (String.eqb_spec s ""); [discriminate|]. intros _. now exists s.
Qed.

Ltac run_handler :=
  unfold POST, try_catch, bind, fetch, console_error, emit, await, ret,
    request_of, type_of; simpl.

Lemma NextResponse_json_call_answerable (body : Payload) (status : Z) :
  answerable status ->
  NextResponse_json_call body status = Ok (NextResponse_json body status).
Proof.
  intros ((Hlo & Hhi) & H204 & H205 & H304). unfold NextResponse_json_call, null_body_status.
  destruct (Z.ltb_spec status 200); [lia|]. destruct (Z.ltb_spec 599 status); [lia|].
  destruct (Z.eqb_spec status 101); [lia|]. destruct (Z.eqb_spec status 103); [lia|].
  destruct (Z.eqb_spec status 204); [lia|]. destruct (Z.eqb_spec status 205); [lia|].
  destruct (Z.eqb_spec status 304); [lia|]. reflexivity.
Qed.

Lemma NextResponse_json_call_throws (body : Payload) (status : Z) :
  ~ answerable status ->
  exists error,
    NextResponse_json_call body status = Throw error /\ error <> SyntaxError.
Proof.
  intros Hno. unfold NextResponse_json_call, null_body_status.
  destruct (Z.ltb_spec status 200); [exists OtherError; split; [reflexivity | discriminate]|].
  destruct (Z.ltb_spec 599 status); [exists OtherError; split; [reflexivity | discriminate]|].
  destruct (Z.eqb_spec status 101); [lia|]. destruct (Z.eqb_spec status 103); [lia|].
  destruct (Z.eqb_spec status 204); [exists TypeError; split; [reflexivity | discriminate]|].
  destruct (Z.eqb_spec status 205); [exists TypeError; split; [reflexivity | discriminate]|].
  destruct (Z.eqb_spec status 304); [exists TypeError; split; [reflexivity | discriminate]|].
  elim Hno. unfold answerable. lia.
Qed.

Lemma NextResponse_json_call_Ok (body : Payload) (status : Z) (r : NextResponse) :
  NextResponse_json_call body status = Ok r ->
  r = NextResponse_json body status /\ answerable status.
Proof.
  unfold NextResponse_json_call, null_body_status, answerable.
  destruct (Z.ltb_spec status 200); [discriminate|].
  destruct (Z.ltb_spec 599 status); [discriminate|].
  destruct (Z.eqb_spec status 101); [discriminate|].
  destruct (Z.eqb_spec status 103); [discriminate|].
  destruct (Z.eqb_spec status 204); [discriminate|].
  destruct (Z.eqb_spec status 205); [discriminate|].
  destruct (Z.eqb_spec status 304); [discriminate|].
  simpl. intros [= <-]. split; [reflexivity | lia].
Qed.

(** Once the body is parsed, both texts are there and the key is set, the
    handler calls the completion service and goes on with its answer. *)
Lemma POST_calls (apiKey : option string) network markdown code type :
  truthy markdown = true -> truthy code = true -> truthy apiKey = true ->
  forall tr,
  POST apiKey network (request_of markdown code type) tr =
  let t := type_of type in
  let call := completionCall (to_string apiKey) t
                (getPrompt t (to_string markdown) (to_string code)) in
  let tr1 := (tr ++ [Fetch endpoint call])%list in
  match network endpoint call with
  | Throw e => caught e tr1
  | Ok response =>
      if ok response then
        match json response with
        | Throw e => caught e tr1
        | Ok data =>
            if truthy (first_content data) then
              (Ok (NextResponse_json
                     (ResultBody
                        (let content := to_string (first_content data) in
                         if t =? "summary" then
                           {| readme := None; cursorLog := None; summary := Some content |}
                         else if t =? "cursor" then
                           {| readme := None; cursorLog := Some content; summary := None |}
                         else if t =? "readme" then
                           {| readme := Some content; cursorLog := None; summary := None |}
                         else empty_result)) 200), tr1)
            else
              (Ok (NextResponse_json (ErrorBody "No content generated from AI") 500), tr1)
        end
      else
        match text response with
        | Throw e => caught e tr1
        | Ok errorText =>
            let tr2 :=
              (tr1 ++ [ConsoleError [LogText "NVIDIA API Error:";
                                     LogNumber (status response);
                                     LogText errorText]])%list in
            match NextResponse_json_call
                    (ErrorBody
                       (if (status response =? 401)%Z then "Invalid API key"
                        else if (status response =? 429)%Z then
                          "Rate limit exceeded. Please try again later."
                        else if (status response >=? 500)%Z then
                          "NVIDIA API service unavailable"
                        else "Failed to generate content"))
                    (status response) with
            | Ok r => (Ok r, tr2)
            | Throw e => caught e tr2
            end
        end
  end.
Proof.
  intros Hm Hc Hk tr. unfold POST, try_catch, request_of, type_of.
  unfold bind at 1. unfold await at 1. cbn [request_json Route.markdown Route.code Route.type].
  rewrite Hm, Hc, Hk. cbn [negb orb].
  unfold fetch, bind, emit, await, console_error, ret. cbn [fst snd].
  fold endpoint.
  destruct (network _ _) as [response|e].
  - destruct (ok response); cbn [negb].
    + destruct (json response) as [data|e].
      * destruct (truthy (first_content data)) eqn:Hd.
        -- destruct (truthy_present _ Hd) as (c & -> & Hne). cbn [to_string truthy].
           destruct (String.eqb_spec c ""); [contradiction|]. reflexivity.
        -- reflexivity.
      * destruct e; reflexivity.
    + destruct (text response) as [errorText|e].
      * destruct (NextResponse_json_call _ (status response)) as [r|e].
        -- reflexivity.
        -- destruct e; reflexivity.
      * destruct e; reflexivity.
  - destruct e; reflexivity.
Qed.

(** The handler calls the completion service at most once, and exactly when
    the body is parsed, both texts are there and the key is set. *)
Lemma POST_fetches (apiKey : option string) network request :
  fetches (trace (POST apiKey network request)) =
  match request_json request with
  | Ok req =>
      if truthy (markdown req) && truthy (code req) && truthy apiKey then
        [(endpoint,
          completionCall (to_string apiKey) (type_of (Route.type req))
            (getPrompt (type_of (Route.type req)) (to_string (markdown req))
               (to_string (code req))))]
      else []
  | Throw _ => []
  end.
Proof.
  unfold trace. destruct request as [[[md cd ty]|e]]; simpl.
  - destruct (truthy md) eqn:Hm; [destruct (truthy cd) eqn:Hc; [destruct (truthy apiKey) eqn:Hk|]|]; simpl.
    + change {| request_json := Ok {| markdown := md; code := cd; Route.type := ty |} |}
        with (request_of md cd ty).
      rewrite (POST_calls apiKey network md cd ty Hm Hc Hk). cbv zeta. simpl app.
      destruct (network _ _) as [response|e];
        [destruct (ok response);
         [destruct (json response) as [data|e];
          [destruct (truthy (first_content data))|]
         |destruct (text response) as [errorText|e];
          [destruct (NextResponse_json_call _ _) as [r|e]|]]|];
        reflexivity.
    + run_handler. rewrite Hm, Hc, Hk. reflexivity.
    + run_handler. rewrite Hm, Hc. reflexivity.
    + run_handler. rewrite Hm. reflexivity.
  - run_handler. destruct e; reflexivity.
Qed.

(** ** The successful exchange *)

(** C1. When the completion service answers a request of one of the three
    modes with a 2xx status and a non-empty first completion, the handler
    answers 200 with a result that holds that text in the field of the mode
    (summary, cursorLog, readme) and nothing in the other two; the service is
    called once. *)
Theorem C1_result_field_matches_mode
    (g : GenerationType) (apiKey : option string) network
    (md cd : string) (ty : option string) response data content :
  md <> "" -> cd <> "" -> truthy apiKey = true ->
  type_of ty = type_string g ->
  let call := completionCall (to_string apiKey) (type_string g)
                (getPrompt (type_string g) md cd) in
  network endpoint call = Ok response ->
  ok response = true ->
  json response = Ok data ->
  first_content data = Some content -> content <> "" ->
  POST apiKey network (request_of (Some md) (Some cd) ty) [] =
    (Ok (NextResponse_json
           (ResultBody
              match g with
              | Summary => {| readme := None; cursorLog := None; summary := Some content |}
              | Cursor => {| readme := None; cursorLog := Some content; summary := None |}
              | Readme => {| readme := Some content; cursorLog := None; summary := None |}
              end) 200),
     [Fetch endpoint call]).
Proof.
  intros Hmd Hcd Hk Hty call Hnet Hok Hjson Hfirst Hne.
  rewrite (POST_calls apiKey network (Some md) (Some cd) ty
             (truthy_Some md Hmd) (truthy_Some cd Hcd) Hk).
  cbv zeta. rewrite Hty. simpl to_string. fold call.
  rewrite Hnet, Hok, Hjson, Hfirst, (truthy_Some content Hne).
  destruct g; reflexivity.
Qed.

(** The summary request of the specification's example. *)
Lemma C1_summary_example :
  POST (Some "key") (mocked [completion "Built X using Y."])
       (request_of (Some "chat") (Some "code") (Some "summary")) [] =
    (Ok (NextResponse_json
           (ResultBody {| readme := None; cursorLog := None;
                          summary := Some "Built X using Y." |}) 200),
     [Fetch endpoint
        (completionCall "key" "summary" (getPrompt "summary" "chat" "code"))]).
Proof.
  apply (C1_result_field_matches_mode Summary (Some "key")
           (mocked [completion "Built X using Y."]) "chat" "code" (Some "summary")
           {| status := 200; text := Ok "";
              json := Ok {| choices := Some [completion "Built X using Y."] |} |}
           {| choices := Some [completion "Built X using Y."] |}
           "Built X using Y.");
    solve [reflexivity | discriminate].
Defined.

(** C7. A mode string that is none of the three recognised ones gets the
    combined prompt; the completion service is called all the same, whatever
    it then answers; and when it answers with a non-empty completion the
    handler answers 200 with a result that has none of its three fields: the
    generated text is dropped. *)
Theorem C7_unrecognized_mode
    (t : string) (apiKey : option string) network (md cd : string) :
  t <> "summary" -> t <> "cursor" -> t <> "readme" ->
  md <> "" -> cd <> "" -> truthy apiKey = true ->
  let call := completionCall (to_string apiKey) t (combinedPrompt md cd) in
  getPrompt t md cd = combinedPrompt md cd
  /\ fetches (trace (POST apiKey network (request_of (Some md) (Some cd) (Some t))))
     = [(endpoint, call)]
  /\ forall response data content,
       network endpoint call = Ok response ->
       ok response = true ->
       json response = Ok data ->
       first_content data = Some content -> content <> "" ->
       POST apiKey network (request_of (Some md) (Some cd) (Some t)) [] =
         (Ok (NextResponse_json (ResultBody empty_result) 200),
          [Fetch endpoint call]).
Proof.
  intros Hs Hc Hr Hmd Hcd Hk call.
  assert (Hprompt : getPrompt t md cd = combinedPrompt md cd).
  { unfold getPrompt.
    destruct (String.eqb_spec t "summary"); [contradiction|].
    destruct (String.eqb_spec t "cursor"); [contradiction|].
    destruct (String.eqb_spec t "readme"); [contradiction|]. reflexivity. }
  split; [exact Hprompt|]. split.
  - rewrite POST_fetches. cbn [request_json request_of markdown code Route.type type_of to_string].
    rewrite (truthy_Some md Hmd), (truthy_Some cd Hcd), Hk, Hprompt. reflexivity.
  - intros response data content Hnet Hok Hjson Hfirst Hne.
    rewrite (POST_calls apiKey network (Some md) (Some cd) (Some t)
               (truthy_Some md Hmd) (truthy_Some cd Hcd) Hk).
    cbv zeta. cbn [type_of to_string]. rewrite Hprompt. fold call.
    rewrite Hnet, Hok, Hjson, Hfirst, (truthy_Some content Hne).
    destruct (String.eqb_spec t "summary"); [contradiction|].
    destruct (String.eqb_spec t "cursor"); [contradiction|].
    destruct (String.eqb_spec t "readme"); [contradiction|]. reflexivity.
Qed.

(** A request for the mode "combined" against a service that generates
    "some text". *)
Lemma C7_combined_example :
  getPrompt "combined" "chat" "code" = combinedPrompt "chat" "code"
  /\ fetches (trace (POST (Some "key") (mocked [completion "some text"])
                       (request_of (Some "chat") (Some "code") (Some "combined"))))
     = [(endpoint, completionCall "key" "combined" (combinedPrompt "chat" "code"))]
  /\ POST (Some "key") (mocked [completion "some text"])
          (request_of (Some "chat") (Some "code") (Some "combined")) [] =
       (Ok (NextResponse_json (ResultBody empty_result) 200),
        [Fetch endpoint (completionCall "key" "combined" (combinedPrompt "chat" "code"))]).
Proof.
  destruct (C7_unrecognized_mode "combined" (Some "key")
              (mocked [completion "some text"]) "chat" "code")
    as (Hp & Hf & Hr); try discriminate; try reflexivity.
  split; [exact Hp|]. split; [exact Hf|].
  apply (Hr {| status := 200; text := Ok "";
               json := Ok {| choices := Some [completion "some text"] |} |}
            {| choices := Some [completion "some text"] |} "some text");
    solve [reflexivity | discriminate].
Defined.

(** C8. Every call the handler makes to the completion service goes to the
    chat-completions endpoint and carries the composed prompt as its single
    message, of role user, with temperature 0.7, top_p 1, no streaming, and
    max_tokens 512 when the mode is "summary" and 2048 for any other mode
    string. *)
Theorem C8_outbound_parameters
    (apiKey : option string) network (request : NextRequest)
    (url : string) (init : RequestInit) :
  In (url, init) (fetches (trace (POST apiKey network request))) ->
  exists req,
    request_json request = Ok req
    /\ url = endpoint
    /\ messages (body init) =
         [{| role := "user";
             content := getPrompt (type_of (Route.type req))
                          (to_string (markdown req)) (to_string (code req)) |}]
    /\ temperature (body init) = 7 # 10
    /\ top_p (body init) = 1
    /\ stream (body init) = false
    /\ (type_of (Route.type req) = "summary" -> max_tokens (body init) = 512)
    /\ (type_of (Route.type req) <> "summary" -> max_tokens (body init) = 2048).
Proof.
  rewrite POST_fetches. destruct (request_json request) as [req|e]; [|intros []].
  destruct (truthy (markdown req) && truthy (code req) && truthy apiKey); [|intros []].
  intros [Heq | []]. inversion Heq; subst url init; clear Heq.
  exists req. cbn [body completionCall messages temperature top_p stream max_tokens].
  repeat split; destruct (String.eqb_spec (type_of (Route.type req)) "summary");
    intros; solve [reflexivity | contradiction].
Qed.

(** The call of a readme request carries the cap of 2048 tokens. *)
Lemma C8_readme_example :
  let call := completionCall "key" "readme" (getPrompt "readme" "chat" "code") in
  In (endpoint, call)
     (fetches (trace (POST (Some "key") (mocked [])
                        (request_of (Some "chat") (Some "code") (Some "readme")))))
  /\ max_tokens (body call) = 2048.
Proof.
  assert (Hin : In (endpoint,
                    completionCall "key" "readme" (getPrompt "readme" "chat" "code"))
                   (fetches (trace (POST (Some "key") (mocked [])
                      (request_of (Some "chat") (Some "code") (Some "readme"))))))
    by (left; reflexivity).
  split; [exact Hin|].
  destruct (C8_outbound_parameters (Some "key") (mocked [])
              (request_of (Some "chat") (Some "code") (Some "readme")) _ _ Hin)
    as (req & Hreq & _ & _ & _ & _ & _ & _ & Hother).
  injection Hreq as <-. apply Hother. discriminate.
Defined.



(** ** The failures *)

(** C2, as the code has it.  When the completion service answers with a
    status outside 200-299, the handler chooses a message by that status:
    "Invalid API key" for 401, the rate-limit message for 429, "NVIDIA API
    service unavailable" for 500 and above, "Failed to generate content" for
    the rest.  It reads the body and logs the raw status and body.  Then it
    answers with that message and the upstream status itself (401, 429, 503,
    404, ...), not a fixed 500, whenever a response with a body can have
    that status (200-599, and not 204, 205 or 304).  For the other statuses
    building the answer throws, and so does a body that cannot be read: the
    handler's own [catch] then answers 500 with the internal-error
    message. *)
Theorem C2_upstream_status_passed_through
    (apiKey : option string) network (md cd : string) (ty : option string)
    response :
  md <> "" -> cd <> "" -> truthy apiKey = true ->
  let call := completionCall (to_string apiKey) (type_of ty)
                (getPrompt (type_of ty) md cd) in
  network endpoint call = Ok response ->
  ok response = false ->
  exists errorMessage,
    (status response = 401 -> errorMessage = "Invalid API key")
    /\ (status response = 429 ->
        errorMessage = "Rate limit exceeded. Please try again later.")
    /\ (status response >= 500 -> errorMessage = "NVIDIA API service unavailable")
    /\ (status response <> 401 -> status response <> 429 -> status response < 500 ->
        errorMessage = "Failed to generate content")
    /\ (forall errorText,
          text response = Ok errorText ->
          answerable (status response) ->
          POST apiKey network (request_of (Some md) (Some cd) ty) [] =
            (Ok (NextResponse_json (ErrorBody errorMessage) (status response)),
             [Fetch endpoint call;
              ConsoleError [LogText "NVIDIA API Error:"; LogNumber (status response);
                            LogText errorText]]))
    /\ (forall errorText,
          text response = Ok errorText ->
          ~ answerable (status response) ->
          exists error,
            error <> SyntaxError
            /\ POST apiKey network (request_of (Some md) (Some cd) ty) [] =
                 (Ok (NextResponse_json
                        (ErrorBody
                           "Internal server error occurred while processing your request")
                        500),
                  [Fetch endpoint call;
                   ConsoleError [LogText "NVIDIA API Error:"; LogNumber (status response);
                                 LogText errorText];
                   ConsoleError [LogText "API Error:"; LogError error]]))
    /\ (forall error,
          text response = Throw error -> error <> SyntaxError ->
          POST apiKey network (request_of (Some md) (Some cd) ty) [] =
            (Ok (NextResponse_json
                   (ErrorBody
                      "Internal server error occurred while processing your request")
                   500),
             [Fetch endpoint call;
              ConsoleError [LogText "API Error:"; LogError error]])).
Proof.
  intros Hmd Hcd Hk call Hnet Hok.
  pose proof (POST_calls apiKey network (Some md) (Some cd) ty
                (truthy_Some md Hmd) (truthy_Some cd Hcd) Hk []) as Hrun.
  cbv zeta in Hrun. simpl to_string in Hrun. fold call in Hrun.
  rewrite Hnet, Hok in Hrun.
  eexists. split; [|split; [|split; [|split; [|split; [|split]]]]].
  5: { intros errorText Htext Hans. rewrite Hrun, Htext.
       rewrite (NextResponse_json_call_answerable _ _ Hans). reflexivity. }
  5: { intros errorText Htext Hno. rewrite Hrun, Htext.
       destruct (NextResponse_json_call_throws
                   (ErrorBody
                      (if (status response =? 401)%Z then "Invalid API key"
                       else if (status response =? 429)%Z then
                         "Rate limit exceeded. Please try again later."
                       else if (status response >=? 500)%Z then
                         "NVIDIA API service unavailable"
                       else "Failed to generate content"))
                   (status response) Hno) as (error & Hthrow & Hne).
       exists error. split; [exact Hne|]. rewrite Hthrow.
       destruct error; [contradiction | reflexivity | reflexivity]. }
  5: { intros error Htext Hne. rewrite Hrun, Htext.
       destruct error; [contradiction | reflexivity | reflexivity]. }
  all: destruct (Z.eqb_spec (status response) 401) as [E1|N1];
    [|destruct (Z.eqb_spec (status response) 429) as [E2|N2];
      [|destruct (Z.geb_spec (status response) 500) as [G|L]]];
    intros; solve [reflexivity | lia].
Qed.

(** A service that is down answers 503, and so does the handler. *)
Lemma C2_unavailable_example :
  exists errorMessage,
    POST (Some "key") (failing 503 "Service Unavailable")
         (request_of (Some "chat") (Some "code") (Some "summary")) [] =
      (Ok (NextResponse_json (ErrorBody errorMessage) 503),
       [Fetch endpoint (completionCall "key" "summary" (getPrompt "summary" "chat" "code"));
        ConsoleError [LogText "NVIDIA API Error:"; LogNumber 503;
                      LogText "Service Unavailable"]])
    /\ errorMessage = "NVIDIA API service unavailable".
Proof.
  destruct (C2_upstream_status_passed_through (Some "key")
              (failing 503 "Service Unavailable") "chat" "code" (Some "summary")
              {| status := 503; text := Ok "Service Unavailable";
                 json := Throw SyntaxError |})
    as (msg & _ & _ & H500 & _ & Hrun & _); try discriminate; try reflexivity.
  exists msg. split.
  - apply (Hrun "Service Unavailable"); [reflexivity|]. unfold answerable. simpl. lia.
  - apply H500. simpl. lia.
Defined.

(** C2, as stated, fails: the claim promises status 500 for a service that
    is unavailable (it answers 503) and for a status the handler has no
    message for (404); the handler answers 503 and 404. *)
Lemma C2_status_is_not_500 :
  let unavailable :=
    option_map res_status
      (answer (POST (Some "key") (failing 503 "Service Unavailable")
                 (request_of (Some "chat") (Some "code") (Some "summary")))) in
  let not_found :=
    option_map res_status
      (answer (POST (Some "key") (failing 404 "Not Found")
                 (request_of (Some "chat") (Some "code") (Some "summary")))) in
  (unavailable = Some 503 /\ unavailable <> Some 500)
  /\ (not_found = Some 404 /\ not_found <> Some 500).
Proof.
  repeat split; try reflexivity; discriminate.
Qed.

(** C3, as the code has it.  When [markdown] or [code] is not there or is the
    empty string, the handler answers 400 and does nothing else: no call to
    the completion service.  The handler tests the strings as they come,
    untrimmed. *)
Theorem C3_empty_input_rejected
    (apiKey : option string) network (markdown code ty : option string) :
  missing markdown \/ missing code ->
  POST apiKey network (request_of markdown code ty) [] =
    (Ok (NextResponse_json
           (ErrorBody "Both markdown and code fields are required") 400),
     []).
Proof.
  intros H. run_handler.
  destruct H as [H | H]; apply truthy_missing in H; rewrite H.
  - reflexivity.
  - destruct (truthy markdown); reflexivity.
Qed.

(** An empty transcript: answered 400, and the trace has no call. *)
Lemma C3_empty_transcript_example :
  POST (Some "key") (mocked [completion "some text"])
       (request_of (Some "") (Some "code") (Some "summary")) [] =
    (Ok (NextResponse_json
           (ErrorBody "Both markdown and code fields are required") 400),
     []).
Proof.
  apply (C3_empty_input_rejected (Some "key") (mocked [completion "some text"])
           (Some "") (Some "code") (Some "summary")).
  left. right. reflexivity.
Defined.

(** C3, as stated, fails: a transcript of one space is empty after trimming,
    yet the handler does not answer 400: it calls the completion service and
    answers 200. *)
Lemma C3_whitespace_is_accepted :
  let run := POST (Some "key") (mocked [completion "some text"])
               (request_of (Some " ") (Some "code") (Some "summary")) in
  option_map res_status (answer run) = Some 200
  /\ option_map res_status (answer run) <> Some 400
  /\ fetches (trace run) =
       [(endpoint, completionCall "key" "summary" (getPrompt "summary" " " "code"))]
  /\ fetches (trace run) <> [].
Proof.
  repeat split; try reflexivity; discriminate.
Qed.

(** C5. When both texts are there and the key is not set (or is the empty
    string), the handler logs that NVIDIA_API_KEY is not set and answers 500
    with one fixed message, "Server configuration error: API key not found",
    in which the name of the variable does not occur; the completion service
    is not called.  The texts are tested first: with a text missing the
    answer is 400 even though the key is missing too. *)
Theorem C5_missing_key
    (apiKey : option string) network (ty : option string) :
  missing apiKey ->
  (forall md cd, md <> "" -> cd <> "" ->
     POST apiKey network (request_of (Some md) (Some cd) ty) [] =
       (Ok (NextResponse_json
              (ErrorBody "Server configuration error: API key not found") 500),
        [ConsoleError [LogText "NVIDIA_API_KEY is not set in environment variables"]]))
  /\ occurs "NVIDIA_API_KEY" "Server configuration error: API key not found" = false
  /\ (forall markdown code, missing markdown \/ missing code ->
        POST apiKey network (request_of markdown code ty) [] =
          (Ok (NextResponse_json
                 (ErrorBody "Both markdown and code fields are required") 400),
           [])).
Proof.
  intros Hk. apply truthy_missing in Hk. repeat split.
  - intros md cd Hmd Hcd. run_handler.
    destruct (String.eqb_spec md ""); [contradiction|].
    destruct (String.eqb_spec cd ""); [contradiction|].
    simpl. rewrite Hk. reflexivity.
  - intros markdown code H. run_handler.
    destruct H as [H | H]; apply truthy_missing in H; rewrite H.
    + reflexivity.
    + destruct (truthy markdown); reflexivity.
Qed.

(** No key in the environment: first with both texts, then without code. *)
Lemma C5_no_key_example :
  POST None (mocked [completion "some text"])
       (request_of (Some "chat") (Some "code") (Some "summary")) [] =
    (Ok (NextResponse_json
           (ErrorBody "Server configuration error: API key not found") 500),
     [ConsoleError [LogText "NVIDIA_API_KEY is not set in environment variables"]])
  /\ POST None (mocked [completion "some text"])
          (request_of (Some "chat") (Some "") (Some "summary")) [] =
       (Ok (NextResponse_json
              (ErrorBody "Both markdown and code fields are required") 400),
        []).
Proof.
  destruct (C5_missing_key None (mocked [completion "some text"]) (Some "summary"))
    as (H500 & _ & H400); [left; reflexivity|].
  split.
  - apply H500; discriminate.
  - apply H400. right. right. reflexivity.
Defined.

(** C9, as the code has it.  A request whose body does not parse makes
    [request.json()] throw a SyntaxError; the handler logs it and answers 400
    with "Invalid JSON in request body".  Status 500 is the answer to the
    other exceptions. *)
Theorem C9_malformed_body_answered_400
    (apiKey : option string) network (request : NextRequest) (error : JsError) :
  request_json request = Throw error ->
  (error = SyntaxError ->
     POST apiKey network request [] =
       (Ok (NextResponse_json (ErrorBody "Invalid JSON in request body") 400),
        [ConsoleError [LogText "API Error:"; LogError SyntaxError]]))
  /\ (error <> SyntaxError ->
        POST apiKey network request [] =
          (Ok (NextResponse_json
                 (ErrorBody "Internal server error occurred while processing your request")
                 500),
           [ConsoleError [LogText "API Error:"; LogError error]])).
Proof.
  intros Hthrow. destruct request as [r]. simpl in Hthrow. subst r.
  split; intros He; run_handler; destruct error; try reflexivity;
    try discriminate; contradiction.
Qed.

(** The malformed request. *)
Lemma C9_malformed_example :
  POST (Some "key") (mocked [completion "some text"]) malformed [] =
    (Ok (NextResponse_json (ErrorBody "Invalid JSON in request body") 400),
     [ConsoleError [LogText "API Error:"; LogError SyntaxError]]).
Proof.
  apply (C9_malformed_body_answered_400 (Some "key") (mocked [completion "some text"])
           malformed SyntaxError); reflexivity.
Defined.

(** C9, as stated, fails: the malformed request is answered 400, not 500. *)
Lemma C9_status_is_not_500 :
  let run := POST (Some "key") (mocked [completion "some text"]) malformed in
  option_map res_status (answer run) = Some 400
  /\ option_map res_status (answer run) <> Some 500.
Proof.
  split; [reflexivity | discriminate].
Qed.

(** ** The prompts *)

Lemma append_empty_r (s : string) : s ++ "" = s.
Proof.
  induction s as [|c s IH]; simpl; [reflexivity | now rewrite IH].
Qed.

Lemma append_assoc (a b c : string) : (a ++ b) ++ c = a ++ b ++ c.
Proof.
  induction a as [|x a IH]; simpl; [reflexivity | now rewrite IH].
Qed.

Lemma prefix_append (sub r : string) : String.prefix sub (sub ++ r) = true.
Proof.
  induction sub as [|c sub IH]; simpl.
  - now destruct r.
  - destruct (ascii_dec c c) as [_|N]; [exact IH | now elim N].
Qed.

Lemma skip_append (n : nat) (a r : string) :
  (n <= String.length a)%nat -> skip n (a ++ r) = skip n a ++ r.
Proof.
  revert a. induction n as [|n IH]; intros a Hn; [reflexivity|].
  destruct a as [|c a]; simpl in *; [lia|]. apply IH. lia.
Qed.

Lemma length_append (a b : string) :
  String.length (a ++ b) = (String.length a + String.length b)%nat.
Proof.
  induction a as [|c a IH]; simpl; [reflexivity | now rewrite IH].
Qed.

Lemma after_first_eq (sub s : string) :
  after_first sub s =
  if String.prefix sub s then Some (skip (String.length sub) s)
  else match s with
       | EmptyString => None
       | String _ s' => after_first sub s'
       end.
Proof.
  destruct s; reflexivity.
Qed.

Lemma occurs_eq (sub s : string) :
  occurs sub s =
  if String.prefix sub s then true
  else match s with
       | EmptyString => false
       | String _ s' => occurs sub s'
       end.
Proof.
  destruct s; reflexivity.
Qed.

(** After the first occurrence of [sub] in [a ++ sub ++ r] comes at least
    [r]: the first occurrence is this one or an earlier one. *)
Lemma after_first_append (sub a r : string) :
  exists pre, after_first sub (a ++ sub ++ r) = Some (pre ++ r).
Proof.
  induction a as [|c a IH].
  - exists "". rewrite after_first_eq. simpl append. rewrite prefix_append.
    rewrite skip_append by lia.
    replace (skip (String.length sub) sub) with "".
    + reflexivity.
    + clear. induction sub; simpl; auto.
  - rewrite after_first_eq.
    destruct (String.prefix sub (String c a ++ sub ++ r)) eqn:Hp.
    + exists (skip (String.length sub) (String c a ++ sub)).
      rewrite <- skip_append.
      * now rewrite append_assoc.
      * rewrite length_append. lia.
    + simpl append. exact IH.
Qed.

Lemma occurs_append (sub a r : string) : occurs sub (a ++ sub ++ r) = true.
Proof.
  induction a as [|c a IH]; rewrite occurs_eq.
  - simpl append. now rewrite prefix_append.
  - destruct (String.prefix sub (String c a ++ sub ++ r)); [reflexivity | exact IH].
Qed.

(** C10, as the code has it.  Every template is: instructions that hold no
    separator, the separator "---", the heading of the transcript, the
    transcript as it is, the heading "## Final Code:", the code as it is, and
    then either nothing (summary, readme) or a second separator with
    formatting instructions (cursor, and the combined template of the other
    mode strings, whose transcript heading is "## Chat Export:").  The pieces
    depend on the mode only.  No separator stands between the transcript and
    the code. *)
Theorem C10_template_structure (type : string) :
  exists instructions heading trailing,
    occurs "---" instructions = false
    /\ ((type = "summary" \/ type = "cursor" \/ type = "readme")
        /\ heading = LF ++ LF ++ "## Chat Transcript:" ++ LF
        \/ (type <> "summary" /\ type <> "cursor" /\ type <> "readme")
           /\ heading = LF ++ LF ++ "## Chat Export:" ++ LF)
    /\ ((type = "summary" \/ type = "readme") /\ trailing = ""
        \/ (type <> "summary" /\ type <> "readme")
           /\ exists formatting,
                trailing = LF ++ LF ++ "---" ++ LF ++ LF ++ formatting)
    /\ forall md cd,
         getPrompt type md cd =
           instructions ++ "---" ++ heading ++ md
           ++ LF ++ LF ++ "## Final Code:" ++ LF ++ cd ++ trailing.
Proof.
  unfold getPrompt.
  destruct (String.eqb_spec type "summary") as [Es|Ns];
    [|destruct (String.eqb_spec type "cursor") as [Ec|Nc];
      [|destruct (String.eqb_spec type "readme") as [Er|Nr]]].
  - exists (before_first "---" (summaryPrompt "" "")),
      (LF ++ LF ++ "## Chat Transcript:" ++ LF), "".
    split; [vm_compute; reflexivity|].
    split; [left; split; [now left | reflexivity]|].
    split; [left; split; [now left | reflexivity]|].
    intros md cd. rewrite append_empty_r. vm_compute. reflexivity.
  - exists (before_first "---" (cursorPrompt "" "")),
      (LF ++ LF ++ "## Chat Transcript:" ++ LF),
      (LF ++ LF ++ "---" ++ after_second "---" (cursorPrompt "" "")).
    split; [vm_compute; reflexivity|].
    split; [left; split; [now right; left | reflexivity]|].
    split.
    + right. split; [subst type; split; discriminate|].
      exists (skip 2 (after_second "---" (cursorPrompt "" ""))).
      vm_compute. reflexivity.
    + intros md cd. vm_compute. reflexivity.
  - exists (before_first "---" (readmePrompt "" "")),
      (LF ++ LF ++ "## Chat Transcript:" ++ LF), "".
    split; [vm_compute; reflexivity|].
    split; [left; split; [now right; right | reflexivity]|].
    split; [left; split; [now right | reflexivity]|].
    intros md cd. rewrite append_empty_r. vm_compute. reflexivity.
  - exists (before_first "---" (combinedPrompt "" "")),
      (LF ++ LF ++ "## Chat Export:" ++ LF),
      (LF ++ LF ++ "---" ++ after_second "---" (combinedPrompt "" "")).
    split; [vm_compute; reflexivity|].
    split; [right; split; [repeat split; assumption | reflexivity]|].
    split.
    + right. split; [split; assumption|].
      exists (skip 2 (after_second "---" (combinedPrompt "" ""))).
      vm_compute. reflexivity.
    + intros md cd. vm_compute. reflexivity.
Qed.

(** The summary prompt has one separator only. *)
Lemma summary_prompt_one_separator (rest : string) :
  after_first "---" (getPrompt "summary" "chat" "code") = Some rest ->
  occurs "---" rest = false.
Proof.
  intros H. vm_compute in H. injection H as <-. vm_compute. reflexivity.
Qed.

(** C10, as stated, fails: the summary prompt for the transcript "chat" and
    the code "code" cannot be cut into instructions, separator, transcript,
    separator, code. *)
Lemma C10_summary_prompt_breaks_contract :
  ~ structural_contract (getPrompt "summary" "chat" "code") "chat" "code".
Proof.
  intros (i & g1 & g2 & g3 & t & H).
  destruct (after_first_append "---" i
              (g1 ++ "chat" ++ g2 ++ "---" ++ g3 ++ "code" ++ t)) as (pre & Hpre).
  rewrite <- H in Hpre. apply summary_prompt_one_separator in Hpre.
  replace (pre ++ g1 ++ "chat" ++ g2 ++ "---" ++ g3 ++ "code" ++ t)
    with ((pre ++ g1 ++ "chat" ++ g2) ++ "---" ++ g3 ++ "code" ++ t) in Hpre.
  - rewrite occurs_append in Hpre. discriminate.
  - now rewrite !append_assoc.
Qed.

(** ** The uploaded files *)

Lemma lower_dot (c : ascii) : (lower c =? ".")%char = (c =? ".")%char.
Proof.
  destruct c as [[] [] [] [] [] [] [] []]; reflexivity.
Qed.

Lemma lower_idem (c : ascii) : lower (lower c) = lower c.
Proof.
  destruct c as [[] [] [] [] [] [] [] []]; reflexivity.
Qed.

Lemma toLowerCase_idem (s : string) : toLowerCase (toLowerCase s) = toLowerCase s.
Proof.
  induction s as [|c s IH]; simpl; [reflexivity | now rewrite lower_idem, IH].
Qed.

Lemma split_toLowerCase (s : string) :
  split "." (toLowerCase s) = map toLowerCase (split "." s).
Proof.
  induction s as [|c s IH]; simpl; [reflexivity|].
  rewrite lower_dot, IH. destruct (c =? ".")%char; [reflexivity|].
  destruct (split "." s); reflexivity.
Qed.

Lemma pop_map (f : string -> string) (a : list string) :
  pop (map f a) = option_map f (pop a).
Proof.
  induction a as [|x a IH]; [reflexivity|].
  destruct a as [|y a]; [reflexivity|]. exact IH.
Qed.

(** The letter case of a name does not matter to its extension. *)
Lemma extension_toLowerCase (fileName : string) :
  extension (toLowerCase fileName) = extension fileName.
Proof.
  unfold extension. rewrite split_toLowerCase, pop_map.
  destruct (pop (split "." fileName)); simpl; [now rewrite toLowerCase_idem | reflexivity].
Qed.

Lemma split_no_dot (s : string) : has_dot s = false -> split "." s = [s].
Proof.
  induction s as [|c s IH]; simpl; [reflexivity|].
  destruct (c =? ".")%char; simpl; [discriminate|].
  intros H. now rewrite (IH H).
Qed.

Lemma split_dot (s : string) :
  has_dot s = true -> exists p q r, split "." s = p :: q :: r.
Proof.
  induction s as [|c s IH]; simpl; [discriminate|].
  destruct (c =? ".")%char; simpl.
  - intros _. destruct (has_dot s) eqn:Hd.
    + destruct (IH eq_refl) as (p & q & r & ->). now exists "", p, (q :: r).
    + rewrite (split_no_dot s Hd). now exists "", s, [].
  - intros H. destruct (IH H) as (p & q & r & ->). now exists (String c p), q, r.
Qed.

Lemma after_last_dot_no_dot (s : string) : has_dot s = false -> after_last_dot s = s.
Proof.
  destruct s as [|c s]; simpl; [reflexivity|].
  destruct (c =? ".")%char; simpl; [discriminate|]. now intros ->.
Qed.

(** The piece [pop] takes is what follows the last dot of the name, and the
    whole name when it has no dot. *)
Lemma pop_split (s : string) : pop (split "." s) = Some (after_last_dot s).
Proof.
  induction s as [|c s IH]; [reflexivity|].
  simpl split. simpl after_last_dot.
  destruct (has_dot s) eqn:Hd.
  - destruct (split_dot s Hd) as (p & q & r & Hs). rewrite Hs in *.
    destruct (c =? ".")%char; exact IH.
  - rewrite (split_no_dot s Hd). destruct (c =? ".")%char; reflexivity.
Qed.

Lemma extension_after_last_dot (fileName : string) :
  extension fileName = "." ++ toLowerCase (after_last_dot fileName).
Proof.
  unfold extension. now rewrite pop_split.
Qed.

Lemma includes_two (a b x : string) :
  includes [a; b] x = true <-> x = a \/ x = b.
Proof.
  unfold includes. simpl. now rewrite orb_false_r, orb_true_iff, !String.eqb_eq.
Qed.

(** [find] takes the first element that passes the test. *)
Lemma find_first {A : Type} (p : A -> bool) (l : list A) (x : A) :
  find p l = Some x <->
  exists before after,
    l = (before ++ x :: after)%list /\ p x = true
    /\ forall y, In y before -> p y = false.
Proof.
  split.
  - induction l as [|a l IH]; simpl; [discriminate|].
    destruct (p a) eqn:Hp.
    + intros [= ->]. exists [], l. repeat split; [exact Hp | intros y []].
    + intros H. destruct (IH H) as (before & after & -> & Hx & Hb).
      exists (a :: before), after. repeat split; [exact Hx|].
      intros y [<- | Hy]; [exact Hp | now apply Hb].
  - intros (before & after & -> & Hx & Hb).
    induction before as [|a before IH]; simpl.
    + now rewrite Hx.
    + rewrite (Hb a (or_introl eq_refl)). apply IH.
      intros y Hy. apply Hb. now right.
Qed.

(** C6, at the input where the code fails it.  A name without a dot has no
    extension, yet the code takes the whole name for one: two files named md
    and js are accepted by [isValidFile], make [hasRequiredFiles] hold, and
    are selected as transcript and as code.  So it is for every name without
    a dot that reads md, txt, js or ts in any letter case. *)
Theorem C6_names_without_dot :
  (has_dot "md" = false /\ has_dot "js" = false)
  /\ (isValidFile (file "md") = true /\ isValidFile (file "js") = true)
  /\ hasRequiredFiles [file "md"; file "js"] = true
  /\ markdownFile [file "md"; file "js"] = Some (file "md")
  /\ codeFile [file "md"; file "js"] = Some (file "js")
  /\ forall f,
       has_dot (name f) = false ->
       (isMarkdown f = true <->
        toLowerCase (name f) = "md" \/ toLowerCase (name f) = "txt")
       /\ (isCode f = true <->
           toLowerCase (name f) = "js" \/ toLowerCase (name f) = "ts").
Proof.
  split; [split; reflexivity|]. split; [split; reflexivity|].
  split; [reflexivity|]. split; [reflexivity|]. split; [reflexivity|].
  intros f Hdot. unfold isMarkdown, isCode.
  rewrite !includes_two, extension_after_last_dot, (after_last_dot_no_dot _ Hdot).
  simpl append.
  split; split;
    (intros [H|H]; [left|right]; solve [now injection H | now rewrite H]).
Qed.

(** X26.  What the code does with a list of files.  [hasRequiredFiles] holds
    exactly when the list has a file that passes the chat test and a file
    that passes the code test.  A file passes the chat test when what follows
    the last dot of its name (the whole name when it has no dot) is md or txt
    in any letter case, and the code test when it is js or ts.  The selection
    takes, for each test, the first file of the list that passes it.  So for
    a.py, b.md, c.js the files are there and b.md and c.js are taken; for
    a.py alone they are not there; for x.md, y.txt the transcript is x.md;
    and NOTES.TXT and App.Ts are a transcript and a code file. *)
Theorem required_files_by_last_piece :
  (forall files,
     hasRequiredFiles files = true <->
     (exists f, In f files /\ isMarkdown f = true)
     /\ (exists f, In f files /\ isCode f = true))
  /\ (forall f,
        (isMarkdown f = true <->
         toLowerCase (after_last_dot (name f)) = "md"
         \/ toLowerCase (after_last_dot (name f)) = "txt")
        /\ (isCode f = true <->
            toLowerCase (after_last_dot (name f)) = "js"
            \/ toLowerCase (after_last_dot (name f)) = "ts"))
  /\ (forall files f,
        markdownFile files = Some f <->
        exists before after,
          files = (before ++ f :: after)%list /\ isMarkdown f = true
          /\ forall g, In g before -> isMarkdown g = false)
  /\ (forall files f,
        codeFile files = Some f <->
        exists before after,
          files = (before ++ f :: after)%list /\ isCode f = true
          /\ forall g, In g before -> isCode g = false)
  /\ (hasRequiredFiles [file "a.py"; file "b.md"; file "c.js"] = true
      /\ markdownFile [file "a.py"; file "b.md"; file "c.js"] = Some (file "b.md")
      /\ codeFile [file "a.py"; file "b.md"; file "c.js"] = Some (file "c.js"))
  /\ hasRequiredFiles [file "a.py"] = false
  /\ (markdownFile [file "x.md"; file "y.txt"] = Some (file "x.md")
      /\ markdownFile [file "x.md"; file "y.txt"] <> Some (file "y.txt"))
  /\ (hasRequiredFiles [file "App.Ts"; file "NOTES.TXT"] = true
      /\ markdownFile [file "App.Ts"; file "NOTES.TXT"] = Some (file "NOTES.TXT")
      /\ codeFile [file "App.Ts"; file "NOTES.TXT"] = Some (file "App.Ts")).
Proof.
  split; [|split; [|split; [|split]]].
  - intros files. unfold hasRequiredFiles.
    rewrite andb_true_iff, !existsb_exists. reflexivity.
  - intros f. unfold isMarkdown, isCode.
    rewrite !includes_two, extension_after_last_dot. simpl append.
    split; split;
      (intros [H|H]; [left|right]; solve [now injection H | now rewrite H]).
  - intros files f. apply find_first.
  - intros files f. apply find_first.
  - repeat split; try reflexivity. discriminate.
Qed.

(** * Further properties of the route *)

(** Every run of the handler, by cases: the request, the two texts, the key,
    and then what the network gives. *)
Ltac post_cases apiKey network request :=
  let md := fresh "md" in
  let cd := fresh "cd" in
  let ty := fresh "ty" in
  let err := fresh "err" in
  let Hm := fresh "Hm" in
  let Hc := fresh "Hc" in
  let Hk := fresh "Hk" in
  destruct request as [[[md cd ty]|err]];
  [ destruct (truthy md) eqn:Hm;
    [ destruct (truthy cd) eqn:Hc;
      [ destruct (truthy apiKey) eqn:Hk;
        [ change {| request_json := Ok {| markdown := md; code := cd; Route.type := ty |} |}
            with (request_of md cd ty);
          rewrite (POST_calls apiKey network md cd ty Hm Hc Hk); cbv zeta;
          let response := fresh "response" in
          let data := fresh "data" in
          let e := fresh "e" in
          let Hnet := fresh "Hnet" in
          let Hok := fresh "Hok" in
          let Hjson := fresh "Hjson" in
          let Hdata := fresh "Hdata" in
          destruct (network _ _) as [response|e] eqn:Hnet;
          [ destruct (ok response) eqn:Hok;
            [ destruct (json response) as [data|e] eqn:Hjson;
              [ destruct (truthy (first_content data)) eqn:Hdata | destruct e ]
            | let errorText := fresh "errorText" in
              let r := fresh "r" in
              let Htext := fresh "Htext" in
              let Hcall := fresh "Hcall" in
              let Hans := fresh "Hans" in
              destruct (text response) as [errorText|e] eqn:Htext;
              [ destruct (NextResponse_json_call _ (status response)) as [r|e] eqn:Hcall;
                [ apply NextResponse_json_call_Ok in Hcall;
                  destruct Hcall as [Hcall Hans]; subst r
                | destruct e ]
              | destruct e ] ]
          | destruct e ];
          unfold caught
        | run_handler; rewrite Hm, Hc, Hk ]
      | run_handler; rewrite Hm, Hc ]
    | run_handler; rewrite Hm ]
  | run_handler; destruct err ].

(** X1. The handler always answers: whatever the request, the key and the
    network do, no exception leaves it, and it only adds events to the
    trace it was started on. *)
Theorem POST_always_answers (apiKey : option string) network (request : NextRequest) :
  exists r events,
    forall tr, POST apiKey network request tr = (Ok r, (tr ++ events)%list).
Proof.
  assert (Hnil : forall tr : list Event, tr = (tr ++ [])%list)
    by (intros; now rewrite app_nil_r).
  destruct request as [[[md cd ty]|err]].
  - destruct (truthy md) eqn:Hm;
      [destruct (truthy cd) eqn:Hc; [destruct (truthy apiKey) eqn:Hk|]|].
    + change {| request_json := Ok {| markdown := md; code := cd; Route.type := ty |} |}
        with (request_of md cd ty).
      destruct (network endpoint
                  (completionCall (to_string apiKey) (type_of ty)
                     (getPrompt (type_of ty) (to_string md) (to_string cd))))
        as [response|e] eqn:Hnet;
        [destruct (ok response) eqn:Hok;
         [destruct (json response) as [data|e] eqn:Hjson;
          [destruct (truthy (first_content data)) eqn:Hdata|]
         |destruct (text response) as [errorText|e] eqn:Htext;
          [destruct (NextResponse_json_call
                       (ErrorBody
                          (if (status response =? 401)%Z then "Invalid API key"
                           else if (status response =? 429)%Z then
                             "Rate limit exceeded. Please try again later."
                           else if (status response >=? 500)%Z then
                             "NVIDIA API service unavailable"
                           else "Failed to generate content"))
                       (status response)) as [r|e] eqn:Hcall|]]|];
        eexists; eexists; intros tr;
        rewrite (POST_calls apiKey network md cd ty Hm Hc Hk); cbv zeta;
        rewrite Hnet, ?Hok, ?Hjson, ?Hdata, ?Htext, ?Hcall;
        unfold caught; repeat rewrite <- app_assoc; reflexivity.
    + eexists; eexists; intros tr. run_handler. rewrite Hm, Hc, Hk. simpl. reflexivity.
    + eexists; eexists; intros tr. run_handler. rewrite Hm, Hc. simpl.
      rewrite (Hnil tr) at 1. reflexivity.
    + eexists; eexists; intros tr. run_handler. rewrite Hm. simpl.
      rewrite (Hnil tr) at 1. reflexivity.
  - destruct err; eexists; eexists; intros tr; run_handler; reflexivity.
Qed.

(** X2. No retry: a run calls the completion service once or not at all, and
    it calls it exactly when the body parses, both texts are there and the
    key is set. *)
Theorem POST_calls_once_or_never (apiKey : option string) network (request : NextRequest) :
  (length (fetches (trace (POST apiKey network request))) <= 1)%nat
  /\ (fetches (trace (POST apiKey network request)) <> [] <->
      exists req,
        request_json request = Ok req
        /\ truthy (markdown req) = true /\ truthy (code req) = true
        /\ truthy apiKey = true).
Proof.
  rewrite POST_fetches. destruct (request_json request) as [req|e].
  - destruct (truthy (markdown req)) eqn:Hm; destruct (truthy (code req)) eqn:Hc;
      destruct (truthy apiKey) eqn:Hk; simpl; (split; [lia|]); split;
      try (intros H; now elim H);
      try (intros (req' & [= <-] & H1 & H2 & H3); congruence).
    intros _. exists req. repeat split; assumption.
  - simpl. split; [lia|]. split; [intros H; now elim H|].
    intros (req & Hreq & _). discriminate.
Qed.

(** X3. The key of the environment goes out in the Authorization header of
    the call, and nowhere else in it: every call is a POST of JSON for the
    one model, with the header "Bearer " followed by the key, which is then
    set and not empty. *)
Theorem POST_call_headers
    (apiKey : option string) network (request : NextRequest)
    (url : string) (init : RequestInit) :
  In (url, init) (fetches (trace (POST apiKey network request))) ->
  exists key,
    apiKey = Some key /\ key <> ""
    /\ method init = "POST"
    /\ headers init = [("Authorization", "Bearer " ++ key);
                       ("Content-Type", "application/json")]
    /\ model (body init) = MODEL_NAME.
Proof.
  rewrite POST_fetches. destruct (request_json request) as [req|e]; [|intros []].
  destruct (truthy (markdown req) && truthy (code req)); [|intros []]. simpl.
  destruct (truthy apiKey) eqn:Hk; [|intros []].
  destruct (truthy_present apiKey Hk) as (key & -> & Hne).
  intros [[= <- <-] | []]. exists key. repeat split. exact Hne.
Qed.

Lemma POST_call_headers_example :
  exists key,
    Some "secret" = Some key /\ key <> ""
    /\ method (completionCall "secret" "cursor" (getPrompt "cursor" "chat" "code")) = "POST"
    /\ headers (completionCall "secret" "cursor" (getPrompt "cursor" "chat" "code")) =
         [("Authorization", "Bearer " ++ key); ("Content-Type", "application/json")]
    /\ model (body (completionCall "secret" "cursor" (getPrompt "cursor" "chat" "code"))) =
         MODEL_NAME.
Proof.
  apply (POST_call_headers (Some "secret") (mocked [])
           (request_of (Some "chat") (Some "code") (Some "cursor")) endpoint).
  left. reflexivity.
Defined.

(** X4. When the call itself fails (the promise of [fetch] rejects), the
    handler logs the error and answers 500 with the internal-error message. *)
Theorem POST_network_failure
    (apiKey : option string) network (md cd : string) (ty : option string)
    (error : JsError) :
  md <> "" -> cd <> "" -> truthy apiKey = true ->
  let call := completionCall (to_string apiKey) (type_of ty)
                (getPrompt (type_of ty) md cd) in
  network endpoint call = Throw error ->
  error <> SyntaxError ->
  POST apiKey network (request_of (Some md) (Some cd) ty) [] =
    (Ok (NextResponse_json
           (ErrorBody "Internal server error occurred while processing your request")
           500),
     [Fetch endpoint call; ConsoleError [LogText "API Error:"; LogError error]]).
Proof.
  intros Hmd Hcd Hk call Hnet Hne.
  rewrite (POST_calls apiKey network (Some md) (Some cd) ty
             (truthy_Some md Hmd) (truthy_Some cd Hcd) Hk).
  cbv zeta. simpl to_string. fold call. rewrite Hnet.
  destruct error; [contradiction | reflexivity | reflexivity].
Qed.

Lemma POST_network_failure_example :
  POST (Some "key") (fun _ _ => Throw TypeError)
       (request_of (Some "chat") (Some "code") None) [] =
    (Ok (NextResponse_json
           (ErrorBody "Internal server error occurred while processing your request")
           500),
     [Fetch endpoint (completionCall "key" "summary" (getPrompt "summary" "chat" "code"));
      ConsoleError [LogText "API Error:"; LogError TypeError]]).
Proof.
  apply (POST_network_failure (Some "key") (fun _ _ => Throw TypeError)
           "chat" "code" None TypeError);
    solve [reflexivity | discriminate].
Defined.

(** X5. When the completion service answers with a 2xx status and a body
    that is no JSON, [response.json()] throws a SyntaxError inside the same
    [try]: the handler answers 400 with "Invalid JSON in request body", the
    message of a malformed request, although the request was well formed. *)
Theorem POST_upstream_body_not_json
    (apiKey : option string) network (md cd : string) (ty : option string)
    response :
  md <> "" -> cd <> "" -> truthy apiKey = true ->
  let call := completionCall (to_string apiKey) (type_of ty)
                (getPrompt (type_of ty) md cd) in
  network endpoint call = Ok response ->
  ok response = true ->
  json response = Throw SyntaxError ->
  POST apiKey network (request_of (Some md) (Some cd) ty) [] =
    (Ok (NextResponse_json (ErrorBody "Invalid JSON in request body") 400),
     [Fetch endpoint call; ConsoleError [LogText "API Error:"; LogError SyntaxError]]).
Proof.
  intros Hmd Hcd Hk call Hnet Hok Hjson.
  rewrite (POST_calls apiKey network (Some md) (Some cd) ty
             (truthy_Some md Hmd) (truthy_Some cd Hcd) Hk).
  cbv zeta. simpl to_string. fold call. rewrite Hnet, Hok, Hjson. reflexivity.
Qed.

Lemma POST_upstream_body_not_json_example :
  POST (Some "key") (failing 200 "<html>")
       (request_of (Some "chat") (Some "code") (Some "readme")) [] =
    (Ok (NextResponse_json (ErrorBody "Invalid JSON in request body") 400),
     [Fetch endpoint (completionCall "key" "readme" (getPrompt "readme" "chat" "code"));
      ConsoleError [LogText "API Error:"; LogError SyntaxError]]).
Proof.
  apply (POST_upstream_body_not_json (Some "key") (failing 200 "<html>")
           "chat" "code" (Some "readme")
           {| status := 200; text := Ok "<html>"; json := Throw SyntaxError |});
    solve [reflexivity | discriminate].
Defined.

(** X6. Whatever the mode string, a result the handler answers comes with
    status 200, has at most one of its three fields, and no field holds the
    empty text. *)
Theorem POST_result_shape (apiKey : option string) network (request : NextRequest) :
  exists r,
    answer (POST apiKey network request) = Some r
    /\ match res_body r with
       | ResultBody result =>
           res_status r = 200
           /\ (readme result = None /\ cursorLog result = None
               \/ readme result = None /\ summary result = None
               \/ cursorLog result = None /\ summary result = None)
           /\ readme result <> Some "" /\ cursorLog result <> Some ""
           /\ summary result <> Some ""
       | ErrorBody _ => True
       end.
Proof.
  unfold answer. post_cases apiKey network request; simpl;
    try (eexists; split; [reflexivity | exact I]).
  destruct (truthy_present _ Hdata) as (c & Hc' & Hne).
  eexists. split; [reflexivity|]. simpl. rewrite Hc'. simpl.
  destruct (type_of ty =? "summary"); [|destruct (type_of ty =? "cursor");
    [|destruct (type_of ty =? "readme")]]; simpl;
    (split; [reflexivity|]); (split; [auto|]); repeat split; congruence.
Qed.

(** X7. An error the handler answers never comes with a status in 200-299,
    and its message is one of nine fixed texts: what the completion service
    wrote in its body is logged, never passed on. *)
Theorem POST_error_shape (apiKey : option string) network (request : NextRequest) :
  exists r,
    answer (POST apiKey network request) = Some r
    /\ match res_body r with
       | ErrorBody message =>
           ~ (200 <= res_status r <= 299)
           /\ In message
                ["Both markdown and code fields are required";
                 "Server configuration error: API key not found";
                 "Invalid API key";
                 "Rate limit exceeded. Please try again later.";
                 "NVIDIA API service unavailable";
                 "Failed to generate content";
                 "No content generated from AI";
                 "Invalid JSON in request body";
                 "Internal server error occurred while processing your request"]
       | ResultBody _ => True
       end.
Proof.
  unfold answer. post_cases apiKey network request; simpl;
    try (eexists; split; [reflexivity|]; simpl; first [exact I | split; [lia|]; tauto]).
  eexists. split; [reflexivity|]. simpl. split.
  - unfold ok in Hok. lia.
  - destruct (status response =? 401)%Z; [tauto|].
    destruct (status response =? 429)%Z; [tauto|].
    destruct (status response >=? 500)%Z; tauto.
Qed.

(** Every prompt is a text of the mode, the transcript, the heading of the
    code, the code, and a text of the mode. *)
Lemma getPrompt_pieces (type : string) :
  exists before after,
    forall md cd,
      getPrompt type md cd =
        before ++ md ++ (LF ++ LF ++ "## Final Code:" ++ LF) ++ cd ++ after.
Proof.
  unfold getPrompt.
  destruct (type =? "summary"); [|destruct (type =? "cursor"); [|destruct (type =? "readme")]].
  - exists (before_first (LF ++ LF ++ "## Final") (summaryPrompt "" "")), "".
    intros md cd. rewrite append_empty_r. vm_compute. reflexivity.
  - exists (before_first (LF ++ LF ++ "## Final") (cursorPrompt "" "")),
      (LF ++ LF ++ "---" ++ after_second "---" (cursorPrompt "" "")).
    intros md cd. vm_compute. reflexivity.
  - exists (before_first (LF ++ LF ++ "## Final") (readmePrompt "" "")), "".
    intros md cd. rewrite append_empty_r. vm_compute. reflexivity.
  - exists (before_first (LF ++ LF ++ "## Final") (combinedPrompt "" "")),
      (LF ++ LF ++ "---" ++ after_second "---" (combinedPrompt "" "")).
    intros md cd. vm_compute. reflexivity.
Qed.

(** X8. The composer does not mark where the transcript ends: moving the
    heading of the code from the transcript's end into the code's beginning
    gives the same prompt, for every mode. *)
Theorem getPrompt_boundary (type a b c : string) :
  let heading := LF ++ LF ++ "## Final Code:" ++ LF in
  getPrompt type (a ++ heading ++ b) c = getPrompt type a (b ++ heading ++ c).
Proof.
  cbv zeta. destruct (getPrompt_pieces type) as (before & after & H).
  rewrite !H, !append_assoc. reflexivity.
Qed.

(** * Properties of the page *)

Import Text.

(** ** [trim] *)

Lemma starts_app (w rest : list ascii) : starts w (w ++ rest)%list = true.
Proof.
  induction w as [|a w IH]; simpl; [reflexivity|].
  now rewrite Ascii.eqb_refl, IH.
Qed.

Lemma starts_skipn (w s : list ascii) :
  starts w s = true -> s = (w ++ skipn (length w) s)%list.
Proof.
  revert s. induction w as [|a w IH]; intros s H; [reflexivity|].
  destruct s as [|b s]; simpl in H; [discriminate|].
  apply andb_true_iff in H. destruct H as [Hab Hw].
  apply Ascii.eqb_eq in Hab. subst b. simpl. f_equal. now apply IH.
Qed.

Lemma starts_longer (w a b : list ascii) :
  starts w a = true -> starts w (a ++ b)%list = true.
Proof.
  revert a. induction w as [|x w IH]; intros a H; [reflexivity|].
  destruct a as [|y a]; simpl in *; [discriminate|].
  apply andb_true_iff in H. destruct H as [Hxy Hw].
  now rewrite Hxy, (IH a Hw).
Qed.

(** No white space is the start of another: the one found at the start of a
    text is the one that is there. *)
Lemma leading_whiteSpace (w rest : list ascii) :
  In w whiteSpace -> leading whiteSpace (w ++ rest)%list = Some w.
Proof.
  intros H. unfold whiteSpace in H. simpl in H.
  repeat (destruct H as [<- | H]; [reflexivity|]). contradiction.
Qed.

Lemma whiteSpace_not_empty (w : list ascii) : In w whiteSpace -> (1 <= length w)%nat.
Proof.
  intros H. unfold whiteSpace in H. simpl in H.
  repeat (destruct H as [<- | H]; [simpl; lia|]). contradiction.
Qed.

Lemma reversed_not_empty (w : list ascii) :
  In w (map (@rev ascii) whiteSpace) -> (1 <= length w)%nat.
Proof.
  intros H. apply in_map_iff in H. destruct H as (v & <- & Hv).
  rewrite length_rev. now apply whiteSpace_not_empty.
Qed.

Lemma skipn_app_exact {A : Type} (a b : list A) : skipn (length a) (a ++ b)%list = b.
Proof.
  induction a as [|x a IH]; [reflexivity | exact IH].
Qed.

Lemma strip_run (run : list (list ascii)) (n : nat) (rest : list ascii) :
  Forall (fun w => In w whiteSpace) run ->
  (length run <= n)%nat ->
  strip whiteSpace n (concat run ++ rest)%list = strip whiteSpace (n - length run) rest.
Proof.
  intros Hrun. revert n. induction Hrun as [|w run Hw Hrun IH]; intros n Hn.
  - simpl. now rewrite Nat.sub_0_r.
  - destruct n as [|n]; simpl in Hn; [lia|].
    cbn [concat length]. rewrite <- app_assoc. cbn [strip].
    rewrite (leading_whiteSpace w _ Hw), skipn_app_exact.
    rewrite Nat.sub_succ. apply IH. lia.
Qed.

Lemma length_concat_run (run : list (list ascii)) :
  Forall (fun w => In w whiteSpace) run -> (length run <= length (concat run))%nat.
Proof.
  induction 1 as [|w run Hw Hrun IH]; simpl; [lia|].
  rewrite length_app. pose proof (whiteSpace_not_empty w Hw). lia.
Qed.

Lemma strip_nil (patterns : list (list ascii)) (n : nat) :
  (forall w, In w patterns -> (1 <= length w)%nat) ->
  strip patterns n [] = [].
Proof.
  intros Hne. destruct n as [|n]; [reflexivity|]. simpl.
  destruct (leading patterns []) as [w|] eqn:Hl; [|reflexivity].
  apply find_some in Hl. destruct Hl as [Hin Hs].
  pose proof (Hne w Hin). destruct w; simpl in *; [lia | discriminate].
Qed.

Lemma trim_blank_text (s : string) :
  blank (list_ascii_of_string s) -> trim s = "".
Proof.
  intros (run & Hrun & Hs). unfold trim, trimStart. rewrite Hs.
  rewrite <- (app_nil_r (concat run)) at 2.
  rewrite (strip_run run _ [] Hrun (length_concat_run run Hrun)).
  rewrite (strip_nil whiteSpace _ whiteSpace_not_empty).
  reflexivity.
Qed.

(** X9. A text of white space only (spaces, tabs, line ends, the space
    separators of Unicode, the byte order mark), of any length, is trimmed to
    the empty string. *)
Theorem trim_blank (s : string) :
  blank (list_ascii_of_string s) -> trim s = "".
Proof.
  exact (trim_blank_text s).
Qed.

Lemma trim_blank_example :
  trim (" " ++ LF ++ String "009"%char (" " ++ LF)) = "".
Proof.
  apply trim_blank.
  exists [bytes [32]%nat; bytes [10]%nat; bytes [9]%nat; bytes [32]%nat; bytes [10]%nat].
  split; [|reflexivity].
  repeat (apply Forall_cons;
          [unfold whiteSpace; simpl; repeat (first [left; reflexivity | right])|]).
  apply Forall_nil.
Defined.

(** What [strip] leaves: it took a run of patterns off the start, and no
    pattern is at the start of the rest; the length of the text is fuel
    enough. *)
Lemma strip_spec (patterns : list (list ascii)) (n : nat) (s : list ascii) :
  (forall w, In w patterns -> (1 <= length w)%nat) ->
  (length s <= n)%nat ->
  exists run,
    Forall (fun w => In w patterns) run
    /\ s = (concat run ++ strip patterns n s)%list
    /\ leading patterns (strip patterns n s) = None.
Proof.
  intros Hne. revert s. induction n as [|n IH]; intros s Hn.
  - destruct s; simpl in Hn; [|lia]. exists []. repeat split; [constructor|].
    simpl. destruct (leading patterns []) as [w|] eqn:Hl; [|reflexivity].
    apply find_some in Hl. destruct Hl as [Hin Hs].
    pose proof (Hne w Hin). destruct w; simpl in *; [lia | discriminate].
  - simpl. destruct (leading patterns s) as [w|] eqn:Hl.
    + pose proof (find_some _ _ Hl) as [Hin Hs].
      pose proof (Hne w Hin) as Hw.
      pose proof (starts_skipn w s Hs) as Hsplit.
      assert (Hlen : (length (skipn (length w) s) <= n)%nat).
      { rewrite length_skipn. lia. }
      destruct (IH _ Hlen) as (run & Hrun & Heq & Hnone).
      exists (w :: run). repeat split.
      * now constructor.
      * simpl. rewrite <- app_assoc, <- Heq. exact Hsplit.
      * exact Hnone.
    + exists []. repeat split; [constructor | exact Hl].
Qed.

Lemma rev_concat {A : Type} (l : list (list A)) :
  rev (concat l) = concat (map (@rev A) (rev l)).
Proof.
  induction l as [|x l IH]; [reflexivity|].
  simpl. rewrite rev_app_distr, IH, map_app, concat_app. simpl.
  now rewrite app_nil_r.
Qed.

(** X10. [trim] takes a run of white space off each end and nothing else:
    the text is a run of white space, the trimmed text, and a run of white
    space; and the trimmed text neither starts nor ends with white space. *)
Theorem trim_spec (s : string) :
  exists before after,
    blank before /\ blank after
    /\ list_ascii_of_string s = (before ++ list_ascii_of_string (trim s) ++ after)%list
    /\ leading whiteSpace (list_ascii_of_string (trim s)) = None
    /\ leading (map (@rev ascii) whiteSpace) (rev (list_ascii_of_string (trim s))) = None.
Proof.
  unfold trim. rewrite list_ascii_of_string_of_list_ascii.
  set (s0 := list_ascii_of_string s).
  destruct (strip_spec whiteSpace (length s0) s0 whiteSpace_not_empty (le_n _))
    as (run1 & Hrun1 & Heq1 & Hnone1).
  fold (trimStart s0) in Heq1, Hnone1. set (u := trimStart s0) in *.
  assert (Hlen : (length (rev u) <= length u)%nat) by (rewrite length_rev; lia).
  destruct (strip_spec (map (@rev ascii) whiteSpace) (length u) (rev u)
              reversed_not_empty Hlen) as (run2 & Hrun2 & Heq2 & Hnone2).
  unfold trimEnd. set (v := strip (map (@rev ascii) whiteSpace) (length u) (rev u)) in *.
  assert (Hu : u = (rev v ++ concat (map (@rev ascii) (rev run2)))%list).
  { rewrite <- (rev_involutive u), Heq2, rev_app_distr, rev_concat. reflexivity. }
  exists (concat run1), (concat (map (@rev ascii) (rev run2))).
  split; [now exists run1|]. split.
  - exists (map (@rev ascii) (rev run2)). split; [|reflexivity].
    apply Forall_forall. intros w Hw. apply in_map_iff in Hw.
    destruct Hw as (x & <- & Hx). apply in_rev in Hx.
    rewrite Forall_forall in Hrun2. specialize (Hrun2 x Hx).
    apply in_map_iff in Hrun2. destruct Hrun2 as (y & <- & Hy).
    now rewrite rev_involutive.
  - split; [rewrite Heq1 at 1; now rewrite Hu at 1|]. split.
    + destruct (leading whiteSpace (rev v)) as [w|] eqn:Hl; [|reflexivity].
      apply find_some in Hl. destruct Hl as [Hin Hs].
      apply (starts_longer w (rev v) (concat (map (@rev ascii) (rev run2)))) in Hs.
      rewrite <- Hu in Hs.
      pose proof (find_none _ _ Hnone1 w Hin) as Hno. simpl in Hno. congruence.
    + rewrite rev_involutive. exact Hnone2.
Qed.

(** ** Which files count *)

Lemma isMarkdown_not_isCode (f : File) : isMarkdown f = true -> isCode f = false.
Proof.
  unfold isMarkdown, isCode. intros Hm.
  destruct (includes [".js"; ".ts"] (extension (name f))) eqn:Hc; [|reflexivity].
  apply includes_two in Hm. apply includes_two in Hc.
  destruct Hm as [Hm|Hm]; destruct Hc as [Hc|Hc]; rewrite Hm in Hc; discriminate.
Qed.

(** X11. The file taken as transcript and the file taken as code are never
    the same file: no file passes both tests. *)
Theorem selected_files_differ (files : list File) (m c : File) :
  markdownFile files = Some m -> codeFile files = Some c ->
  m <> c /\ isCode m = false /\ isMarkdown c = false.
Proof.
  unfold markdownFile, codeFile. intros Hm Hc.
  apply find_some in Hm. apply find_some in Hc.
  destruct Hm as [_ Hm]. destruct Hc as [_ Hc].
  pose proof (isMarkdown_not_isCode m Hm) as Hmc.
  repeat split.
  - intros ->. congruence.
  - exact Hmc.
  - destruct (isMarkdown c) eqn:E; [|reflexivity].
    apply isMarkdown_not_isCode in E. congruence.
Qed.

Lemma selected_files_differ_example :
  file "b.md" <> file "c.js"
  /\ isCode (file "b.md") = false /\ isMarkdown (file "c.js") = false.
Proof.
  apply (selected_files_differ [file "a.py"; file "b.md"; file "c.js"]); reflexivity.
Defined.

Lemma existsb_find {A : Type} (p : A -> bool) (l : list A) :
  existsb p l = true <-> exists x, find p l = Some x.
Proof.
  induction l as [|a l IH]; simpl.
  - split; [discriminate | intros [x Hx]; discriminate].
  - destruct (p a); simpl; [|exact IH]. split; [now exists a | reflexivity].
Qed.

Lemma hasRequiredFiles_selection_iff (files : list File) :
  hasRequiredFiles files = true <->
  exists m c, markdownFile files = Some m /\ codeFile files = Some c.
Proof.
  unfold hasRequiredFiles, markdownFile, codeFile.
  rewrite andb_true_iff, !existsb_find. split.
  - intros [[m Hm] [c Hc]]. now exists m, c.
  - intros (m & c & Hm & Hc). split; [now exists m | now exists c].
Qed.

(** X12. [hasRequiredFiles] holds exactly when both selections of
    [generateContent] find a file; so past its guard the [try] block never
    stops at "Required file types not found". *)
Theorem hasRequiredFiles_selection (files : list File) :
  (hasRequiredFiles files = true <->
   exists m c, markdownFile files = Some m /\ codeFile files = Some c)
  /\ forall readFileContent network type,
       hasRequiredFiles files = true ->
       Home.attempt readFileContent network type files
       <> ([], Home.Threw (Home.ErrorObject "Required file types not found")).
Proof.
  pose proof (hasRequiredFiles_selection_iff files) as Hiff.
  split; [exact Hiff|].
  intros readFileContent network type H. apply Hiff in H.
  destruct H as (m & c & Hm & Hc). unfold markdownFile, codeFile in Hm, Hc.
  unfold Home.attempt. rewrite Hm, Hc.
  destruct (readFileContent m), (readFileContent c); discriminate.
Qed.

Lemma usable_file_is_valid (f : File) :
  isMarkdown f = true \/ isCode f = true -> isValidFile f = true.
Proof.
  unfold isMarkdown, isCode, isValidFile. rewrite !includes_two.
  intros [[H|H] | [H|H]]; rewrite H; reflexivity.
Qed.

(** ** The list of uploaded files *)

Lemma uploadedFiles_handleFileSelect (files : list File) (st : Home.State) :
  Home.uploadedFiles (fst (Home.handleFileSelect files st)) =
  (Home.uploadedFiles st ++ filter isValidFile files)%list.
Proof.
  unfold Home.handleFileSelect. simpl.
  destruct (negb _); reflexivity.
Qed.

Lemma uploadedFiles_handleDrop (files : list File) (st : Home.State) :
  Home.uploadedFiles (fst (Home.handleDrop files st)) =
  (Home.uploadedFiles st ++ filter isValidFile files)%list.
Proof.
  unfold Home.handleDrop.
  pose proof (uploadedFiles_handleFileSelect files (Home.setIsDragOver false st)) as H.
  destruct (Home.handleFileSelect files (Home.setIsDragOver false st)) as [st' e].
  exact H.
Qed.

(** X13. A file that passes the chat test or the code test is never
    rejected: offered to [handleFileSelect], it is in the list afterwards,
    and all the files that were there are still there, in front and in
    their order. *)
Theorem handleFileSelect_keeps_usable (files : list File) (st : Home.State) (f : File) :
  In f files ->
  isMarkdown f = true \/ isCode f = true ->
  exists added,
    Home.uploadedFiles (fst (Home.handleFileSelect files st)) =
      (Home.uploadedFiles st ++ added)%list
    /\ In f added.
Proof.
  intros Hin Huse. exists (filter isValidFile files). split.
  - apply uploadedFiles_handleFileSelect.
  - apply filter_In. split; [exact Hin | now apply usable_file_is_valid].
Qed.

Lemma handleFileSelect_keeps_usable_example :
  exists added,
    Home.uploadedFiles
      (fst (Home.handleFileSelect [file "a.py"; file "NOTES.TXT"] Home.initial)) =
      (Home.uploadedFiles Home.initial ++ added)%list
    /\ In (file "NOTES.TXT") added.
Proof.
  apply handleFileSelect_keeps_usable; [right; left; reflexivity | left; reflexivity].
Defined.

Lemma filter_index_sub {A : Type} (keep : nat -> bool) (i : nat) (l : list A) (P : A -> Prop) :
  Forall P l -> Forall P (Home.filter_index keep i l).
Proof.
  intros H. revert i. induction H as [|x l Hx Hl IH]; intros i; simpl; [constructor|].
  destruct (keep i); [constructor; [exact Hx | apply IH] | apply IH].
Qed.

Lemma uploadedFiles_generateContent readFileContent network type (st : Home.State) :
  Home.uploadedFiles (fst (Home.generateContent readFileContent network type st)) =
  Home.uploadedFiles st.
Proof.
  unfold Home.generateContent.
  destruct (hasRequiredFiles (Home.uploadedFiles st)); simpl; [|reflexivity].
  destruct (Home.attempt readFileContent network type (Home.uploadedFiles st))
    as [effects [update|err]]; reflexivity.
Qed.

Lemma perform_keeps_valid readFileContent network (a : Home.Action) (st : Home.State) :
  Forall (fun f => isValidFile f = true) (Home.uploadedFiles st) ->
  Forall (fun f => isValidFile f = true)
    (Home.uploadedFiles (Home.perform readFileContent network a st)).
Proof.
  intros H. destruct a as [files|files| | |index|type|]; cbn [Home.perform].
  - rewrite uploadedFiles_handleFileSelect. apply Forall_app. split; [exact H|].
    apply Forall_forall. intros f Hf. now apply filter_In in Hf.
  - rewrite uploadedFiles_handleDrop. apply Forall_app. split; [exact H|].
    apply Forall_forall. intros f Hf. now apply filter_In in Hf.
  - exact H.
  - exact H.
  - now apply filter_index_sub.
  - now rewrite uploadedFiles_generateContent.
  - exact H.
Qed.

(** X14. Whatever the user does, in whatever order, every file in the list of
    the page is one that [isValidFile] accepts. *)
Theorem uploaded_files_are_valid readFileContent network (actions : list Home.Action) :
  Forall (fun f => isValidFile f = true)
    (Home.uploadedFiles (Home.run readFileContent network actions Home.initial)).
Proof.
  unfold Home.run.
  assert (H : Forall (fun f => isValidFile f = true) (Home.uploadedFiles Home.initial))
    by constructor.
  revert H. generalize Home.initial.
  induction actions as [|a actions IH]; intros st H; simpl; [exact H|].
  apply IH. now apply perform_keeps_valid.
Qed.

Lemma find_app_found {A : Type} (p : A -> bool) (l more : list A) (x : A) :
  find p l = Some x -> find p (l ++ more)%list = Some x.
Proof.
  induction l as [|a l IH]; simpl; [discriminate|].
  destruct (p a); [trivial | exact IH].
Qed.

(** X15. First come, first served, also across uploads: once a transcript (or
    a code file) is selected, selecting or dropping more files does not
    change which one it is, and the required files stay there. *)
Theorem selection_survives_upload (files : list File) (st : Home.State) :
  let st' := fst (Home.handleFileSelect files st) in
  (forall m, markdownFile (Home.uploadedFiles st) = Some m ->
             markdownFile (Home.uploadedFiles st') = Some m)
  /\ (forall c, codeFile (Home.uploadedFiles st) = Some c ->
                codeFile (Home.uploadedFiles st') = Some c)
  /\ (hasRequiredFiles (Home.uploadedFiles st) = true ->
      hasRequiredFiles (Home.uploadedFiles st') = true).
Proof.
  cbv zeta. rewrite uploadedFiles_handleFileSelect.
  assert (Hm : forall m, markdownFile (Home.uploadedFiles st) = Some m ->
                 markdownFile (Home.uploadedFiles st ++ filter isValidFile files) = Some m)
    by (intros m; apply find_app_found).
  assert (Hc : forall c, codeFile (Home.uploadedFiles st) = Some c ->
                 codeFile (Home.uploadedFiles st ++ filter isValidFile files) = Some c)
    by (intros c; apply find_app_found).
  split; [exact Hm|]. split; [exact Hc|].
  intros H.
  destruct (proj1 (hasRequiredFiles_selection_iff (Home.uploadedFiles st)) H)
    as (m & c & Hm' & Hc').
  apply (hasRequiredFiles_selection_iff _). exists m, c. split; auto.
Qed.

Lemma filter_index_all {A : Type} (keep : nat -> bool) (i : nat) (l : list A) :
  (forall j, (i <= j)%nat -> keep j = true) -> Home.filter_index keep i l = l.
Proof.
  revert i. induction l as [|x l IH]; intros i H; simpl; [reflexivity|].
  rewrite (H i (le_n i)). f_equal. apply IH. intros j Hj. apply H. lia.
Qed.

Lemma filter_index_ext {A : Type} (keep keep' : nat -> bool) (i : nat) (l : list A) :
  (forall j, keep j = keep' j) ->
  Home.filter_index keep i l = Home.filter_index keep' i l.
Proof.
  intros H. revert i. induction l as [|x l IH]; intros i; simpl; [reflexivity|].
  rewrite (H i), !IH. reflexivity.
Qed.

Lemma filter_index_remove {A : Type} (l : list A) (i k : nat) :
  Home.filter_index (fun j => negb (j =? i + k)%nat) i l =
  (firstn k l ++ skipn (S k) l)%list.
Proof.
  revert i k. induction l as [|x l IH]; intros i k.
  - now rewrite firstn_nil, skipn_nil.
  - cbn [Home.filter_index]. destruct k as [|k].
    + rewrite Nat.add_0_r, Nat.eqb_refl. simpl.
      apply filter_index_all. intros j Hj.
      apply negb_true_iff, Nat.eqb_neq. lia.
    + replace (i =? i + S k)%nat with false
        by (symmetry; apply Nat.eqb_neq; lia).
      cbn [negb].
      transitivity (x :: Home.filter_index (fun j => negb (j =? S i + k)%nat) (S i) l).
      * f_equal. apply filter_index_ext. intros j. now rewrite Nat.add_succ_r.
      * rewrite IH. reflexivity.
Qed.

(** X16. [removeFile] takes out the file at the index and no other, keeping
    the order; an index past the end changes nothing; and removing the file
    just uploaded gives the list back. *)
Theorem removeFile_spec (index : nat) (st : Home.State) :
  let files := Home.uploadedFiles st in
  Home.uploadedFiles (Home.removeFile index st) =
    (firstn index files ++ skipn (S index) files)%list
  /\ ((length files <= index)%nat ->
      Home.uploadedFiles (Home.removeFile index st) = files)
  /\ ((index < length files)%nat ->
      S (length (Home.uploadedFiles (Home.removeFile index st))) = length files)
  /\ forall f, isValidFile f = true ->
       Home.uploadedFiles
         (Home.removeFile (length files) (fst (Home.handleFileSelect [f] st))) = files.
Proof.
  cbv zeta.
  assert (Hspec : forall i st0,
            Home.uploadedFiles (Home.removeFile i st0) =
            (firstn i (Home.uploadedFiles st0) ++ skipn (S i) (Home.uploadedFiles st0))%list).
  { intros i st0. unfold Home.removeFile. cbn [Home.uploadedFiles Home.setUploadedFiles].
    apply (filter_index_remove (Home.uploadedFiles st0) 0 i). }
  split; [apply Hspec|]. split; [|split].
  - intros Hlen. rewrite Hspec, firstn_all2 by exact Hlen.
    rewrite skipn_all2 by lia. apply app_nil_r.
  - intros Hlt. rewrite Hspec, length_app, length_firstn, length_skipn. lia.
  - intros f Hf. rewrite Hspec, uploadedFiles_handleFileSelect.
    cbn [filter]. rewrite Hf.
    rewrite firstn_app, Nat.sub_diag, firstn_all, firstn_O, app_nil_r.
    rewrite skipn_app, skipn_all2 by lia.
    replace (S (length (Home.uploadedFiles st)) - length (Home.uploadedFiles st))%nat
      with 1%nat by lia.
    simpl. apply app_nil_r.
Qed.

(** ** [generateContent] *)

(** X17. A request [generateContent] sends goes to /api/summary as a POST
    whose body holds the trimmed text of the first chat file, the trimmed
    text of the first code file, and the mode. *)
Theorem generateContent_request readFileContent network
    (type : GenerationType) (st : Home.State) (url : string) (init : Home.RequestInit) :
  In (Home.Fetch url init)
     (snd (Home.generateContent readFileContent network type st)) ->
  url = "/api/summary"
  /\ Home.method init = "POST"
  /\ Home.headers init = [("Content-Type", "application/json")]
  /\ exists m c markdownContent codeContent,
       markdownFile (Home.uploadedFiles st) = Some m
       /\ codeFile (Home.uploadedFiles st) = Some c
       /\ readFileContent m = Some markdownContent
       /\ readFileContent c = Some codeContent
       /\ Home.body init =
            {| Home.markdown := trim markdownContent;
               Home.code := trim codeContent;
               Home.type := type |}.
Proof.
  unfold Home.generateContent, Home.attempt, markdownFile, codeFile.
  destruct (hasRequiredFiles (Home.uploadedFiles st)); simpl; [|intros []].
  destruct (find isMarkdown (Home.uploadedFiles st)) as [m|];
    [destruct (find isCode (Home.uploadedFiles st)) as [c|]|];
    [destruct (readFileContent m) as [mc|] eqn:Hmc;
     [destruct (readFileContent c) as [cc|] eqn:Hcc|]| |];
    try (simpl; intros [H|[]]; discriminate).
  set (sent := {| Home.method := "POST";
                  Home.headers := [("Content-Type", "application/json")];
                  Home.body := {| Home.markdown := trim mc; Home.code := trim cc;
                                  Home.type := type |} |}).
  intros H.
  assert (Hsent : url = "/api/summary" /\ init = sent).
  { revert H. fold sent. destruct (network "/api/summary" sent) as [response|t]; simpl.
    - destruct (negb (Home.ok response)); simpl.
      + intros [[= <- <-] | [H | []]]; [now split | discriminate].
      + destruct (Home.json response); simpl.
        * intros [[= <- <-] | []]. now split.
        * intros [[= <- <-] | [H | []]]; [now split | discriminate].
    - intros [[= <- <-] | [H | []]]; [now split | discriminate]. }
  destruct Hsent as [-> ->]. repeat split. exists m, c, mc, cc.
  repeat split; assumption.
Qed.

Lemma generateContent_request_example :
  "/api/summary" = "/api/summary"
  /\ Home.method
       {| Home.method := "POST";
          Home.headers := [("Content-Type", "application/json")];
          Home.body := {| Home.markdown := "b.md"; Home.code := "c.js";
                          Home.type := Readme |} |} = "POST"
  /\ Home.headers
       {| Home.method := "POST";
          Home.headers := [("Content-Type", "application/json")];
          Home.body := {| Home.markdown := "b.md"; Home.code := "c.js";
                          Home.type := Readme |} |} =
     [("Content-Type", "application/json")]
  /\ exists m c markdownContent codeContent,
       markdownFile [file "a.py"; file "b.md"; file "c.js"] = Some m
       /\ codeFile [file "a.py"; file "b.md"; file "c.js"] = Some c
       /\ (fun f => Some (" " ++ name f ++ LF)) m = Some markdownContent
       /\ (fun f => Some (" " ++ name f ++ LF)) c = Some codeContent
       /\ Home.body
            {| Home.method := "POST";
               Home.headers := [("Content-Type", "application/json")];
               Home.body := {| Home.markdown := "b.md"; Home.code := "c.js";
                               Home.type := Readme |} |} =
            {| Home.markdown := trim markdownContent;
               Home.code := trim codeContent;
               Home.type := Readme |}.
Proof.
  apply (generateContent_request (fun f => Some (" " ++ name f ++ LF))
           (fun _ _ => Home.Threw Home.OtherValue) Readme
           (Home.setUploadedFiles
              (fun _ => [file "a.py"; file "b.md"; file "c.js"]) Home.initial)).
  left. reflexivity.
Defined.

(** Every run of [generateContent], by cases. *)
Ltac generate_cases readFileContent network st :=
  unfold Home.generateContent, Home.attempt;
  destruct (hasRequiredFiles (Home.uploadedFiles st)) eqn:Hreq; cbn [negb];
  [ destruct (find isMarkdown (Home.uploadedFiles st)) as [m|] eqn:Hm;
    [ destruct (find isCode (Home.uploadedFiles st)) as [c|] eqn:Hc;
      [ destruct (readFileContent m) as [mc|] eqn:Hmc;
        [ destruct (readFileContent c) as [cc|] eqn:Hcc;
          [ destruct (network _ _) as [response|thrown] eqn:Hnet;
            [ destruct (Home.ok response) eqn:Hok; cbn [negb];
              [ destruct (Home.json response) as [data|thrown] eqn:Hjson | ]
            | ]
          | ]
        | ]
      | ]
    | ]
  | ].

(** X18. However it ends, [generateContent] leaves the list of files alone.
    With the required files there it ends with the loading flag down and no
    loading type; without them it only sets the error that asks for them,
    and sends nothing. *)
Theorem generateContent_settles readFileContent network
    (type : GenerationType) (st : Home.State) :
  let st' := fst (Home.generateContent readFileContent network type st) in
  let effects := snd (Home.generateContent readFileContent network type st) in
  Home.uploadedFiles st' = Home.uploadedFiles st
  /\ Home.isDragOver st' = Home.isDragOver st
  /\ if hasRequiredFiles (Home.uploadedFiles st) then
       Home.isLoading st' = false /\ Home.loadingType st' = None
     else
       st' = Home.setError
               "Please upload at least one chat file (.md or .txt) and one code file (.js or .ts)."
               st
       /\ effects = [].
Proof.
  cbv zeta. generate_cases readFileContent network st; simpl; repeat split.
Qed.

(** X19. A run of [generateContent] for one mode never touches the results
    of the other two modes; and when it ends with an error to show, the
    results are all as they were. *)
Theorem generateContent_results readFileContent network
    (type : GenerationType) (st : Home.State) :
  let st' := fst (Home.generateContent readFileContent network type st) in
  match type with
  | Summary =>
      Home.readme (Home.results st') = Home.readme (Home.results st)
      /\ Home.cursorLog (Home.results st') = Home.cursorLog (Home.results st)
  | Cursor =>
      Home.readme (Home.results st') = Home.readme (Home.results st)
      /\ Home.summary (Home.results st') = Home.summary (Home.results st)
  | Readme =>
      Home.cursorLog (Home.results st') = Home.cursorLog (Home.results st)
      /\ Home.summary (Home.results st') = Home.summary (Home.results st)
  end
  /\ (Home.error st' <> "" -> Home.results st' = Home.results st).
Proof.
  cbv zeta. generate_cases readFileContent network st; simpl;
    (split; [destruct type; split; reflexivity|]); try (intros _; reflexivity).
  intros H. now elim H.
Qed.

Lemma hasRequiredFiles_found (files : list File) (m c : File) :
  markdownFile files = Some m -> codeFile files = Some c ->
  hasRequiredFiles files = true.
Proof.
  intros Hm Hc. apply hasRequiredFiles_selection_iff. now exists m, c.
Qed.

(** X20. When the route answers with a status outside 200-299, the page
    shows the [error] of the body if the body parses and has one that is not
    empty, and "HTTP", the status and the status text otherwise; the results
    stay, and the error is logged. *)
Theorem generateContent_failure_message readFileContent network
    (type : GenerationType) (st : Home.State)
    (m c : File) (markdownContent codeContent : string) (response : Home.Response) :
  markdownFile (Home.uploadedFiles st) = Some m ->
  codeFile (Home.uploadedFiles st) = Some c ->
  readFileContent m = Some markdownContent ->
  readFileContent c = Some codeContent ->
  let init :=
    {| Home.method := "POST";
       Home.headers := [("Content-Type", "application/json")];
       Home.body := {| Home.markdown := trim markdownContent;
                       Home.code := trim codeContent;
                       Home.type := type |} |} in
  network "/api/summary" init = Home.Value response ->
  Home.ok response = false ->
  let st' := fst (Home.generateContent readFileContent network type st) in
  let effects := snd (Home.generateContent readFileContent network type st) in
  Home.results st' = Home.results st
  /\ effects = [Home.Fetch "/api/summary" init;
                Home.ConsoleError "Error:" (Home.ErrorObject (Home.error st'))]
  /\ (forall data message,
        Home.json response = Home.Value data ->
        Home.data_error data = Some message -> message <> "" ->
        Home.error st' = message)
  /\ ((forall data, Home.json response = Home.Value data ->
                    Home.data_error data = None \/ Home.data_error data = Some "") ->
      Home.error st' =
        "HTTP " ++ Home.number_to_string (Home.status response) ++ ": "
        ++ Home.statusText response).
Proof.
  intros Hm Hc Hmc Hcc init Hnet Hok. cbv zeta.
  unfold Home.generateContent, Home.attempt.
  rewrite (hasRequiredFiles_found _ m c Hm Hc).
  unfold markdownFile, codeFile in Hm, Hc. rewrite Hm, Hc, Hmc, Hcc.
  fold init. rewrite Hnet, Hok. cbn [negb fst snd app Home.results Home.setResults
    Home.setError Home.setLoadingType Home.setIsLoading Home.error].
  split; [reflexivity|]. split; [reflexivity|]. split.
  - intros data message Hjson Herr Hne. rewrite Hjson, Herr.
    cbn [truthy to_string]. destruct (String.eqb_spec message ""); [contradiction|].
    reflexivity.
  - intros Hnone. destruct (Home.json response) as [data|t]; [|reflexivity].
    destruct (Hnone data eq_refl) as [-> | ->]; reflexivity.
Qed.

Lemma generateContent_failure_message_example :
  let st := Home.setUploadedFiles (fun _ => [file "b.md"; file "c.js"]) Home.initial in
  let network := fun (_ : string) (_ : Home.RequestInit) =>
    Home.Value {| Home.status := 404; Home.statusText := "Not Found";
                  Home.json := Home.Threw (Home.ErrorObject "Unexpected token") |} in
  Home.error (fst (Home.generateContent (fun f => Some (name f)) network Summary st)) =
    "HTTP 404: Not Found".
Proof.
  cbv zeta.
  apply (generateContent_failure_message (fun f => Some (name f))
           (fun _ _ => Home.Value {| Home.status := 404; Home.statusText := "Not Found";
                                     Home.json := Home.Threw (Home.ErrorObject "Unexpected token") |})
           Summary
           (Home.setUploadedFiles (fun _ => [file "b.md"; file "c.js"]) Home.initial)
           (file "b.md") (file "c.js") "b.md" "c.js"
           {| Home.status := 404; Home.statusText := "Not Found";
              Home.json := Home.Threw (Home.ErrorObject "Unexpected token") |});
    try reflexivity.
  intros data H. discriminate.
Defined.

(** X21. When the route answers with a status in 200-299 and a body that
    parses, the page clears the error and takes the field of the mode from
    the body as it is: a body without that field erases the result the page
    had for the mode. *)
Theorem generateContent_success readFileContent network
    (type : GenerationType) (st : Home.State)
    (m c : File) (markdownContent codeContent : string)
    (response : Home.Response) (data : Home.Data) :
  markdownFile (Home.uploadedFiles st) = Some m ->
  codeFile (Home.uploadedFiles st) = Some c ->
  readFileContent m = Some markdownContent ->
  readFileContent c = Some codeContent ->
  let init :=
    {| Home.method := "POST";
       Home.headers := [("Content-Type", "application/json")];
       Home.body := {| Home.markdown := trim markdownContent;
                       Home.code := trim codeContent;
                       Home.type := type |} |} in
  network "/api/summary" init = Home.Value response ->
  Home.ok response = true ->
  Home.json response = Home.Value data ->
  let st' := fst (Home.generateContent readFileContent network type st) in
  let effects := snd (Home.generateContent readFileContent network type st) in
  Home.error st' = ""
  /\ effects = [Home.Fetch "/api/summary" init]
  /\ match type with
     | Summary => Home.summary (Home.results st') = Home.data_summary data
     | Cursor => Home.cursorLog (Home.results st') = Home.data_cursorLog data
     | Readme => Home.readme (Home.results st') = Home.data_readme data
     end.
Proof.
  intros Hm Hc Hmc Hcc init Hnet Hok Hjson. cbv zeta.
  unfold Home.generateContent, Home.attempt.
  rewrite (hasRequiredFiles_found _ m c Hm Hc).
  unfold markdownFile, codeFile in Hm, Hc. rewrite Hm, Hc, Hmc, Hcc.
  fold init. rewrite Hnet, Hok, Hjson. simpl.
  repeat split. destruct type; reflexivity.
Qed.

Lemma generateContent_success_example :
  let st := Home.setResults
              (fun _ => {| Home.readme := None; Home.cursorLog := None;
                           Home.summary := Some "old" |})
              (Home.setUploadedFiles (fun _ => [file "b.md"; file "c.js"]) Home.initial) in
  let network := fun (_ : string) (_ : Home.RequestInit) =>
    Home.Value {| Home.status := 200; Home.statusText := "OK";
                  Home.json := Home.Value {| Home.data_error := None;
                                             Home.data_summary := None;
                                             Home.data_readme := None;
                                             Home.data_cursorLog := None |} |} in
  Home.summary
    (Home.results (fst (Home.generateContent (fun f => Some (name f)) network Summary st)))
  = None.
Proof.
  cbv zeta.
  refine (proj2 (proj2
    (generateContent_success (fun f => Some (name f))
       (fun _ _ => Home.Value {| Home.status := 200; Home.statusText := "OK";
                    Home.json := Home.Value {| Home.data_error := None;
                                               Home.data_summary := None;
                                               Home.data_readme := None;
                                               Home.data_cursorLog := None |} |})
       Summary
       (Home.setResults
          (fun _ => {| Home.readme := None; Home.cursorLog := None;
                       Home.summary := Some "old" |})
          (Home.setUploadedFiles (fun _ => [file "b.md"; file "c.js"]) Home.initial))
       (file "b.md") (file "c.js") "b.md" "c.js"
       {| Home.status := 200; Home.statusText := "OK";
          Home.json := Home.Value {| Home.data_error := None;
                                     Home.data_summary := None;
                                     Home.data_readme := None;
                                     Home.data_cursorLog := None |} |}
       {| Home.data_error := None; Home.data_summary := None;
          Home.data_readme := None; Home.data_cursorLog := None |}
       eq_refl eq_refl eq_refl eq_refl eq_refl eq_refl eq_refl))).
Defined.

(** X22. When a file cannot be read, nothing is sent: the page logs what was
    thrown, which is no [Error], and shows "An unknown error occurred". *)
Theorem generateContent_read_failure readFileContent network
    (type : GenerationType) (st : Home.State) (m c : File) :
  markdownFile (Home.uploadedFiles st) = Some m ->
  codeFile (Home.uploadedFiles st) = Some c ->
  readFileContent m = None \/ readFileContent c = None ->
  let st' := fst (Home.generateContent readFileContent network type st) in
  let effects := snd (Home.generateContent readFileContent network type st) in
  Home.error st' = "An unknown error occurred"
  /\ effects = [Home.ConsoleError "Error:" Home.OtherValue]
  /\ Home.results st' = Home.results st.
Proof.
  intros Hm Hc Hread. cbv zeta.
  unfold Home.generateContent, Home.attempt.
  rewrite (hasRequiredFiles_found _ m c Hm Hc).
  unfold markdownFile, codeFile in Hm, Hc. rewrite Hm, Hc.
  destruct Hread as [H | H]; rewrite H.
  - repeat split.
  - destruct (readFileContent m); repeat split.
Qed.

Lemma generateContent_read_failure_example :
  let st := Home.setUploadedFiles (fun _ => [file "b.md"; file "c.js"]) Home.initial in
  let st' := fst (Home.generateContent (fun _ => None)
                    (fun _ _ => Home.Threw Home.OtherValue) Cursor st) in
  let effects := snd (Home.generateContent (fun _ => None)
                        (fun _ _ => Home.Threw Home.OtherValue) Cursor st) in
  Home.error st' = "An unknown error occurred"
  /\ effects = [Home.ConsoleError "Error:" Home.OtherValue]
  /\ Home.results st' = Home.results st.
Proof.
  cbv zeta.
  apply (generateContent_read_failure (fun _ => None)
           (fun _ _ => Home.Threw Home.OtherValue) Cursor
           (Home.setUploadedFiles (fun _ => [file "b.md"; file "c.js"]) Home.initial)
           (file "b.md") (file "c.js")); [reflexivity | reflexivity | left; reflexivity].
Defined.

(** ** The page in front of the route *)

Lemma POST_missing_text (apiKey : option string) network (md cd ty : option string) :
  truthy md = false \/ truthy cd = false ->
  POST apiKey network (request_of md cd ty) [] =
    (Ok (NextResponse_json
           (ErrorBody "Both markdown and code fields are required") 400),
     []).
Proof.
  intros H. run_handler. destruct H as [H | H]; rewrite H.
  - reflexivity.
  - destruct (truthy md); reflexivity.
Qed.

(** What the route answers to a request of the page, whose mode is one of
    the three: an error of a status outside 200-299 with one of its nine
    messages, or status 200 and a text that is not empty in the field of the
    mode. *)
Lemma POST_recognised (apiKey : option string) network (md cd : string)
    (g : GenerationType) :
  exists r,
    fst (POST apiKey network (request_of (Some md) (Some cd) (Some (type_string g))) [])
    = Ok r
    /\ ((exists message,
           res_body r = ErrorBody message
           /\ message <> ""
           /\ ((200 <=? res_status r)%Z && (res_status r <=? 299)%Z = false)
           /\ In message
                ["Both markdown and code fields are required";
                 "Server configuration error: API key not found";
                 "Invalid API key";
                 "Rate limit exceeded. Please try again later.";
                 "NVIDIA API service unavailable";
                 "Failed to generate content";
                 "No content generated from AI";
                 "Invalid JSON in request body";
                 "Internal server error occurred while processing your request"])
        \/ (exists content,
              content <> ""
              /\ res_status r = 200
              /\ res_body r =
                   ResultBody
                     match g with
                     | Summary => {| Route.readme := None; Route.cursorLog := None;
                                     Route.summary := Some content |}
                     | Cursor => {| Route.readme := None; Route.cursorLog := Some content;
                                    Route.summary := None |}
                     | Readme => {| Route.readme := Some content; Route.cursorLog := None;
                                    Route.summary := None |}
                     end)).
Proof.
  destruct (truthy (Some md)) eqn:Hm;
    [destruct (truthy (Some cd)) eqn:Hc; [destruct (truthy apiKey) eqn:Hk|]|].
  - rewrite (POST_calls apiKey network (Some md) (Some cd) (Some (type_string g)) Hm Hc Hk).
    cbv zeta.
    destruct (network _ _) as [response|e];
      [destruct (ok response) eqn:Hok;
       [destruct (json response) as [data|e];
        [destruct (truthy (first_content data)) eqn:Hdata|]|]|].
    + destruct (truthy_present _ Hdata) as (content & Hcontent & Hne).
      eexists. split; [reflexivity|]. right. exists content.
      split; [exact Hne|]. split; [reflexivity|].
      simpl. rewrite Hcontent. destruct g; reflexivity.
    + eexists. split; [reflexivity|]. left. eexists. split; [reflexivity|].
      split; [discriminate|]. split; [reflexivity|]. simpl. tauto.
    + destruct e; (eexists; split; [reflexivity|]); left; eexists;
        (split; [reflexivity|]); (split; [discriminate|]);
        (split; [reflexivity|]); simpl; tauto.
    + destruct (text response) as [errorText|e];
        [destruct (NextResponse_json_call _ (status response)) as [r|e] eqn:Hcall;
         [apply NextResponse_json_call_Ok in Hcall; destruct Hcall as [-> Hans]|]|].
      * eexists. split; [reflexivity|]. left. eexists. split; [reflexivity|].
        cbn [res_status NextResponse_json]. unfold ok in Hok.
        destruct (status response =? 401)%Z; [|destruct (status response =? 429)%Z;
          [|destruct (status response >=? 500)%Z]];
          (split; [discriminate|]); (split; [exact Hok|]); simpl; tauto.
      * destruct e; (eexists; split; [reflexivity|]); left; eexists;
          (split; [reflexivity|]); (split; [discriminate|]);
          (split; [reflexivity|]); simpl; tauto.
      * destruct e; (eexists; split; [reflexivity|]); left; eexists;
          (split; [reflexivity|]); (split; [discriminate|]);
          (split; [reflexivity|]); simpl; tauto.
    + destruct e; (eexists; split; [reflexivity|]); left; eexists;
        (split; [reflexivity|]); (split; [discriminate|]);
        (split; [reflexivity|]); simpl; tauto.
  - run_handler. fold (truthy (Some md)). fold (truthy (Some cd)). rewrite Hm, Hc, Hk.
    eexists. split; [reflexivity|]. left. eexists. split; [reflexivity|].
    split; [discriminate|]. split; [reflexivity|]. simpl. tauto.
  - rewrite POST_missing_text by now right.
    eexists. split; [reflexivity|]. left. eexists. split; [reflexivity|].
    split; [discriminate|]. split; [reflexivity|]. simpl. tauto.
  - rewrite POST_missing_text by now left.
    eexists. split; [reflexivity|]. left. eexists. split; [reflexivity|].
    split; [discriminate|]. split; [reflexivity|]. simpl. tauto.
Qed.

Lemma route_answer (apiKey : option string) upstream statusText
    (url : string) (init : Home.RequestInit) (r : NextResponse) :
  fst (POST apiKey upstream
         (request_of (Some (Home.markdown (Home.body init)))
            (Some (Home.code (Home.body init)))
            (Some (type_string (Home.type (Home.body init))))) []) = Ok r ->
  Served.route apiKey upstream statusText url init =
    Home.Value {| Home.status := res_status r;
                  Home.statusText := statusText (res_status r);
                  Home.json := Home.Value (Served.data_of (res_body r)) |}.
Proof.
  intros H. unfold Served.route.
  change {| request_json :=
              Ok {| Route.markdown := Some (Home.markdown (Home.body init));
                    Route.code := Some (Home.code (Home.body init));
                    Route.type := Some (type_string (Home.type (Home.body init))) |} |}
    with (request_of (Some (Home.markdown (Home.body init)))
            (Some (Home.code (Home.body init)))
            (Some (type_string (Home.type (Home.body init))))).
  now rewrite H.
Qed.

(** X23. Page and route together: when the chat file or the code file holds
    white space only, the page sends an empty text, the route answers 400
    without calling the completion service, and the page shows "Both
    markdown and code fields are required" and keeps its results. *)
Theorem served_blank_input readFileContent (apiKey : option string) upstream statusText
    (type : GenerationType) (st : Home.State)
    (m c : File) (markdownContent codeContent : string) :
  markdownFile (Home.uploadedFiles st) = Some m ->
  codeFile (Home.uploadedFiles st) = Some c ->
  readFileContent m = Some markdownContent ->
  readFileContent c = Some codeContent ->
  blank (list_ascii_of_string markdownContent)
  \/ blank (list_ascii_of_string codeContent) ->
  let init :=
    {| Home.method := "POST";
       Home.headers := [("Content-Type", "application/json")];
       Home.body := {| Home.markdown := trim markdownContent;
                       Home.code := trim codeContent;
                       Home.type := type |} |} in
  let st' := fst (Home.generateContent readFileContent
                    (Served.route apiKey upstream statusText) type st) in
  Home.error st' = "Both markdown and code fields are required"
  /\ Home.results st' = Home.results st
  /\ Served.route_trace apiKey upstream init = [].
Proof.
  intros Hm Hc Hmc Hcc Hblank init. cbv zeta.
  assert (Hmissing : truthy (Some (trim markdownContent)) = false
                     \/ truthy (Some (trim codeContent)) = false).
  { destruct Hblank as [H | H]; [left | right]; now rewrite (trim_blank_text _ H). }
  pose proof (POST_missing_text apiKey upstream (Some (trim markdownContent))
                (Some (trim codeContent)) (Some (type_string type)) Hmissing) as Hpost.
  assert (Hroute : Served.route apiKey upstream statusText "/api/summary" init =
            Home.Value {| Home.status := 400; Home.statusText := statusText 400;
                          Home.json := Home.Value
                            (Served.data_of
                               (ErrorBody "Both markdown and code fields are required")) |}).
  { apply (route_answer apiKey upstream statusText "/api/summary" init
             (NextResponse_json
                (ErrorBody "Both markdown and code fields are required") 400)).
    cbn [init Home.body Home.markdown Home.code Home.type]. now rewrite Hpost. }
  split; [|split].
  - unfold Home.generateContent, Home.attempt.
    rewrite (hasRequiredFiles_found _ m c Hm Hc).
    unfold markdownFile, codeFile in Hm, Hc. rewrite Hm, Hc, Hmc, Hcc.
    fold init. rewrite Hroute. reflexivity.
  - unfold Home.generateContent, Home.attempt.
    rewrite (hasRequiredFiles_found _ m c Hm Hc).
    unfold markdownFile, codeFile in Hm, Hc. rewrite Hm, Hc, Hmc, Hcc.
    fold init. rewrite Hroute. reflexivity.
  - unfold Served.route_trace.
    change {| request_json :=
                Ok {| Route.markdown := Some (Home.markdown (Home.body init));
                      Route.code := Some (Home.code (Home.body init));
                      Route.type := Some (type_string (Home.type (Home.body init))) |} |}
      with (request_of (Some (trim markdownContent)) (Some (trim codeContent))
              (Some (type_string type))).
    now rewrite Hpost.
Qed.

Lemma served_blank_input_example :
  let st := Home.setUploadedFiles (fun _ => [file "b.md"; file "c.js"]) Home.initial in
  let read := fun f : File => if name f =? "b.md" then Some (" " ++ LF) else Some "code" in
  let st' := fst (Home.generateContent read
                    (Served.route (Some "key") (mocked [completion "some text"])
                       (fun _ => ""))
                    Summary st) in
  Home.error st' = "Both markdown and code fields are required"
  /\ Home.results st' = Home.results st
  /\ Served.route_trace (Some "key") (mocked [completion "some text"])
       {| Home.method := "POST";
          Home.headers := [("Content-Type", "application/json")];
          Home.body := {| Home.markdown := trim (" " ++ LF);
                          Home.code := trim "code";
                          Home.type := Summary |} |} = [].
Proof.
  cbv zeta.
  apply (served_blank_input
           (fun f : File => if name f =? "b.md" then Some (" " ++ LF) else Some "code")
           (Some "key") (mocked [completion "some text"]) (fun _ => "") Summary
           (Home.setUploadedFiles (fun _ => [file "b.md"; file "c.js"]) Home.initial)
           (file "b.md") (file "c.js") (" " ++ LF) "code");
    try reflexivity.
  left. exists [bytes [32]%nat; bytes [10]%nat]. split; [|reflexivity].
  repeat (apply Forall_cons;
          [unfold whiteSpace; simpl; repeat (first [left; reflexivity | right])|]).
  apply Forall_nil.
Defined.

(** X24. Page and route together, all going well: with texts that are not
    blank, a key, and a completion service that answers with a text, the page
    ends with no error, not loading, the text in the result of the mode, and
    the other two results as they were. *)
Theorem served_success readFileContent (apiKey : option string) upstream statusText
    (type : GenerationType) (st : Home.State)
    (m c : File) (markdownContent codeContent : string)
    response data (content : string) :
  markdownFile (Home.uploadedFiles st) = Some m ->
  codeFile (Home.uploadedFiles st) = Some c ->
  readFileContent m = Some markdownContent ->
  readFileContent c = Some codeContent ->
  trim markdownContent <> "" -> trim codeContent <> "" ->
  truthy apiKey = true ->
  upstream endpoint
    (completionCall (to_string apiKey) (type_string type)
       (getPrompt (type_string type) (trim markdownContent) (trim codeContent)))
  = Ok response ->
  Route.ok response = true ->
  Route.json response = Ok data ->
  first_content data = Some content -> content <> "" ->
  let st' := fst (Home.generateContent readFileContent
                    (Served.route apiKey upstream statusText) type st) in
  Home.error st' = "" /\ Home.isLoading st' = false
  /\ Home.results st' =
       match type with
       | Summary => {| Home.readme := Home.readme (Home.results st);
                       Home.cursorLog := Home.cursorLog (Home.results st);
                       Home.summary := Some content |}
       | Cursor => {| Home.readme := Home.readme (Home.results st);
                      Home.cursorLog := Some content;
                      Home.summary := Home.summary (Home.results st) |}
       | Readme => {| Home.readme := Some content;
                      Home.cursorLog := Home.cursorLog (Home.results st);
                      Home.summary := Home.summary (Home.results st) |}
       end.
Proof.
  intros Hm Hc Hmc Hcc Hmd Hcd Hk Hup Hok Hjson Hfirst Hne. cbv zeta.
  set (init := {| Home.method := "POST";
                  Home.headers := [("Content-Type", "application/json")];
                  Home.body := {| Home.markdown := trim markdownContent;
                                  Home.code := trim codeContent;
                                  Home.type := type |} |}).
  assert (Hroute : exists result,
            Served.route apiKey upstream statusText "/api/summary" init =
              Home.Value {| Home.status := 200; Home.statusText := statusText 200;
                            Home.json := Home.Value (Served.data_of (ResultBody result)) |}
            /\ result =
                 match type with
                 | Summary => {| Route.readme := None; Route.cursorLog := None;
                                 Route.summary := Some content |}
                 | Cursor => {| Route.readme := None; Route.cursorLog := Some content;
                                Route.summary := None |}
                 | Readme => {| Route.readme := Some content; Route.cursorLog := None;
                                Route.summary := None |}
                 end).
  { eexists. split.
    - apply (route_answer apiKey upstream statusText "/api/summary" init
               (NextResponse_json (ResultBody _) 200)).
      cbn [init Home.body Home.markdown Home.code Home.type].
      rewrite (POST_calls apiKey upstream (Some (trim markdownContent))
                 (Some (trim codeContent)) (Some (type_string type))
                 (truthy_Some _ Hmd) (truthy_Some _ Hcd) Hk).
      cbv zeta. cbn [type_of to_string].
      rewrite Hup, Hok, Hjson, Hfirst, (truthy_Some content Hne). reflexivity.
    - destruct type; reflexivity. }
  destruct Hroute as (result & Hroute & Hresult).
  unfold Home.generateContent, Home.attempt.
  rewrite (hasRequiredFiles_found _ m c Hm Hc).
  unfold markdownFile, codeFile in Hm, Hc. rewrite Hm, Hc, Hmc, Hcc.
  fold init. rewrite Hroute. subst result.
  destruct type; repeat split.
Qed.

Lemma served_success_example :
  let st := Home.setUploadedFiles (fun _ => [file "b.md"; file "c.js"]) Home.initial in
  let st' := fst (Home.generateContent (fun f => Some (name f))
                    (Served.route (Some "key") (mocked [completion "Built X using Y."])
                       (fun _ => ""))
                    Summary st) in
  Home.error st' = "" /\ Home.isLoading st' = false
  /\ Home.results st' =
       {| Home.readme := None; Home.cursorLog := None;
          Home.summary := Some "Built X using Y." |}.
Proof.
  cbv zeta.
  apply (served_success (fun f => Some (name f)) (Some "key")
           (mocked [completion "Built X using Y."]) (fun _ => "") Summary
           (Home.setUploadedFiles (fun _ => [file "b.md"; file "c.js"]) Home.initial)
           (file "b.md") (file "c.js") "b.md" "c.js"
           {| Route.status := 200; Route.text := Ok "";
              Route.json := Ok {| choices := Some [completion "Built X using Y."] |} |}
           {| choices := Some [completion "Built X using Y."] |}
           "Built X using Y.");
    solve [reflexivity | discriminate].
Defined.

(** X25. Page and route together, whatever the key and the completion
    service do: once both files are read, the run ends either with no error
    and a text that is not empty in the result of the mode, or with one of
    the nine messages of the route as the error and the results as they
    were.  The page never falls back on "HTTP" and the status. *)
Theorem served_outcome readFileContent (apiKey : option string) upstream statusText
    (type : GenerationType) (st : Home.State)
    (m c : File) (markdownContent codeContent : string) :
  markdownFile (Home.uploadedFiles st) = Some m ->
  codeFile (Home.uploadedFiles st) = Some c ->
  readFileContent m = Some markdownContent ->
  readFileContent c = Some codeContent ->
  let st' := fst (Home.generateContent readFileContent
                    (Served.route apiKey upstream statusText) type st) in
  (Home.error st' = ""
   /\ exists content,
        content <> ""
        /\ match type with
           | Summary => Home.summary (Home.results st')
           | Cursor => Home.cursorLog (Home.results st')
           | Readme => Home.readme (Home.results st')
           end = Some content)
  \/ (In (Home.error st')
        ["Both markdown and code fields are required";
         "Server configuration error: API key not found";
         "Invalid API key";
         "Rate limit exceeded. Please try again later.";
         "NVIDIA API service unavailable";
         "Failed to generate content";
         "No content generated from AI";
         "Invalid JSON in request body";
         "Internal server error occurred while processing your request"]
      /\ Home.results st' = Home.results st).
Proof.
  intros Hm Hc Hmc Hcc. cbv zeta.
  set (init := {| Home.method := "POST";
                  Home.headers := [("Content-Type", "application/json")];
                  Home.body := {| Home.markdown := trim markdownContent;
                                  Home.code := trim codeContent;
                                  Home.type := type |} |}).
  destruct (POST_recognised apiKey upstream (trim markdownContent) (trim codeContent) type)
    as (r & Hpost & Hshape).
  pose proof (route_answer apiKey upstream statusText "/api/summary" init r Hpost) as Hroute.
  unfold Home.generateContent, Home.attempt.
  rewrite (hasRequiredFiles_found _ m c Hm Hc).
  unfold markdownFile, codeFile in Hm, Hc. rewrite Hm, Hc, Hmc, Hcc.
  fold init. rewrite Hroute. unfold Home.ok. cbn [Home.status Home.json].
  destruct Hshape as [(message & Hbody & Hne & Hstatus & Hin)
                     | (content & Hne & Hstatus & Hbody)].
  - right. rewrite Hstatus, Hbody. cbn [negb Served.data_of Home.data_error truthy to_string].
    destruct (String.eqb_spec message ""); [contradiction|].
    cbn [negb fst Home.error Home.setError Home.setLoadingType Home.setIsLoading
         Home.results]. split; [exact Hin | reflexivity].
  - left. rewrite Hstatus, Hbody. simpl. split; [reflexivity|].
    exists content. split; [exact Hne|]. destruct type; reflexivity.
Qed.

Lemma served_outcome_example :
  let st := Home.setUploadedFiles (fun _ => [file "b.md"; file "c.js"]) Home.initial in
  let st' := fst (Home.generateContent (fun f => Some (name f))
                    (Served.route None (mocked [completion "some text"]) (fun _ => ""))
                    Readme st) in
  (Home.error st' = ""
   /\ exists content,
        content <> "" /\ Home.readme (Home.results st') = Some content)
  \/ (In (Home.error st')
        ["Both markdown and code fields are required";
         "Server configuration error: API key not found";
         "Invalid API key";
         "Rate limit exceeded. Please try again later.";
         "NVIDIA API service unavailable";
         "Failed to generate content";
         "No content generated from AI";
         "Invalid JSON in request body";
         "Internal server error occurred while processing your request"]
      /\ Home.results st' = Home.results st).
Proof.
  cbv zeta.
  apply (served_outcome (fun f => Some (name f)) None
           (mocked [completion "some text"]) (fun _ => "") Readme
           (Home.setUploadedFiles (fun _ => [file "b.md"; file "c.js"]) Home.initial)
           (file "b.md") (file "c.js") "b.md" "c.js"); reflexivity.
Defined.
